(** * Caesar-shift cryptanalysis (activity-04/q1-d.py)

    A shallow embedding of the brute-force Caesar solver and the
    properties its specification states about it, with the character
    tally of activity-04/q1-a.py.

    Python values are modelled as follows.
    - [str] is a sequence of Unicode code points, [list Z].  The [for]
      loops of the program bind one-character strings; they are modelled
      by the code point itself.
    - [int] is [Z]; [float] is an IEEE 754 binary64 number, [float] of
      [PrimFloat], whose operations round exactly as CPython's do.
    - An exception is a value of [exn]; every function that contains an
      operation that can raise lives in the [result] monad.
    - [collections.Counter] is a [gmap], the set [COMMON_WORDS] a [gset],
      the dict [EN_FREQ] an association list, since [sum(EN_FREQ.values())]
      adds the values in insertion order. *)

From Stdlib Require Import ZArith List Lia Bool String Ascii.
From Stdlib Require Import PrimFloat FloatOps SpecFloat FloatAxioms.
From Stdlib Require Import Permutation.
From stdpp Require Import base option list sorting gmap.
Import ListNotations.

Set Warnings "-inexact-float".
Local Open Scope Z_scope.

(** A Python string: its code points, in order. *)
Abbreviation str := (list Z).

(** The string written as an ASCII literal. *)
Definition py (s : string) : str :=
  map (fun a => Z.of_N (N_of_ascii a)) (list_ascii_of_string s).

(** ** The Unicode character database

    The character predicates and case mappings of CPython's [str], for a
    one-character string, as functions of its code point.  The tables are
    those of Unicode 14.0.0 (CPython 3.11); ASCII is decided directly, as
    CPython does. *)

Module Unicode.

(** Code points above U+007F with general category Lu, Ll, Lt, Lm or Lo,
    as inclusive ranges: the characters on which [str.isalpha] is [True]. *)
Definition alpha_ranges : list (Z * Z) :=
  [ (0xAA,0xAA); (0xB5,0xB5); (0xBA,0xBA); (0xC0,0xD6); (0xD8,0xF6); (0xF8,0x2C1); (0x2C6,0x2D1);
    (0x2E0,0x2E4); (0x2EC,0x2EC); (0x2EE,0x2EE); (0x370,0x374); (0x376,0x377); (0x37A,0x37D);
    (0x37F,0x37F); (0x386,0x386); (0x388,0x38A); (0x38C,0x38C); (0x38E,0x3A1); (0x3A3,0x3F5);
    (0x3F7,0x481); (0x48A,0x52F); (0x531,0x556); (0x559,0x559); (0x560,0x588); (0x5D0,0x5EA);
    (0x5EF,0x5F2); (0x620,0x64A); (0x66E,0x66F); (0x671,0x6D3); (0x6D5,0x6D5); (0x6E5,0x6E6);
    (0x6EE,0x6EF); (0x6FA,0x6FC); (0x6FF,0x6FF); (0x710,0x710); (0x712,0x72F); (0x74D,0x7A5);
    (0x7B1,0x7B1); (0x7CA,0x7EA); (0x7F4,0x7F5); (0x7FA,0x7FA); (0x800,0x815); (0x81A,0x81A);
    (0x824,0x824); (0x828,0x828); (0x840,0x858); (0x860,0x86A); (0x870,0x887); (0x889,0x88E);
    (0x8A0,0x8C9); (0x904,0x939); (0x93D,0x93D); (0x950,0x950); (0x958,0x961); (0x971,0x980);
    (0x985,0x98C); (0x98F,0x990); (0x993,0x9A8); (0x9AA,0x9B0); (0x9B2,0x9B2); (0x9B6,0x9B9);
    (0x9BD,0x9BD); (0x9CE,0x9CE); (0x9DC,0x9DD); (0x9DF,0x9E1); (0x9F0,0x9F1); (0x9FC,0x9FC);
    (0xA05,0xA0A); (0xA0F,0xA10); (0xA13,0xA28); (0xA2A,0xA30); (0xA32,0xA33); (0xA35,0xA36);
    (0xA38,0xA39); (0xA59,0xA5C); (0xA5E,0xA5E); (0xA72,0xA74); (0xA85,0xA8D); (0xA8F,0xA91);
    (0xA93,0xAA8); (0xAAA,0xAB0); (0xAB2,0xAB3); (0xAB5,0xAB9); (0xABD,0xABD); (0xAD0,0xAD0);
    (0xAE0,0xAE1); (0xAF9,0xAF9); (0xB05,0xB0C); (0xB0F,0xB10); (0xB13,0xB28); (0xB2A,0xB30);
    (0xB32,0xB33); (0xB35,0xB39); (0xB3D,0xB3D); (0xB5C,0xB5D); (0xB5F,0xB61); (0xB71,0xB71);
    (0xB83,0xB83); (0xB85,0xB8A); (0xB8E,0xB90); (0xB92,0xB95); (0xB99,0xB9A); (0xB9C,0xB9C);
    (0xB9E,0xB9F); (0xBA3,0xBA4); (0xBA8,0xBAA); (0xBAE,0xBB9); (0xBD0,0xBD0); (0xC05,0xC0C);
    (0xC0E,0xC10); (0xC12,0xC28); (0xC2A,0xC39); (0xC3D,0xC3D); (0xC58,0xC5A); (0xC5D,0xC5D);
    (0xC60,0xC61); (0xC80,0xC80); (0xC85,0xC8C); (0xC8E,0xC90); (0xC92,0xCA8); (0xCAA,0xCB3);
    (0xCB5,0xCB9); (0xCBD,0xCBD); (0xCDD,0xCDE); (0xCE0,0xCE1); (0xCF1,0xCF2); (0xD04,0xD0C);
    (0xD0E,0xD10); (0xD12,0xD3A); (0xD3D,0xD3D); (0xD4E,0xD4E); (0xD54,0xD56); (0xD5F,0xD61);
    (0xD7A,0xD7F); (0xD85,0xD96); (0xD9A,0xDB1); (0xDB3,0xDBB); (0xDBD,0xDBD); (0xDC0,0xDC6);
    (0xE01,0xE30); (0xE32,0xE33); (0xE40,0xE46); (0xE81,0xE82); (0xE84,0xE84); (0xE86,0xE8A);
    (0xE8C,0xEA3); (0xEA5,0xEA5); (0xEA7,0xEB0); (0xEB2,0xEB3); (0xEBD,0xEBD); (0xEC0,0xEC4);
    (0xEC6,0xEC6); (0xEDC,0xEDF); (0xF00,0xF00); (0xF40,0xF47); (0xF49,0xF6C); (0xF88,0xF8C);
    (0x1000,0x102A); (0x103F,0x103F); (0x1050,0x1055); (0x105A,0x105D); (0x1061,0x1061);
    (0x1065,0x1066); (0x106E,0x1070); (0x1075,0x1081); (0x108E,0x108E); (0x10A0,0x10C5);
    (0x10C7,0x10C7); (0x10CD,0x10CD); (0x10D0,0x10FA); (0x10FC,0x1248); (0x124A,0x124D);
    (0x1250,0x1256); (0x1258,0x1258); (0x125A,0x125D); (0x1260,0x1288); (0x128A,0x128D);
    (0x1290,0x12B0); (0x12B2,0x12B5); (0x12B8,0x12BE); (0x12C0,0x12C0); (0x12C2,0x12C5);
    (0x12C8,0x12D6); (0x12D8,0x1310); (0x1312,0x1315); (0x1318,0x135A); (0x1380,0x138F);
    (0x13A0,0x13F5); (0x13F8,0x13FD); (0x1401,0x166C); (0x166F,0x167F); (0x1681,0x169A);
    (0x16A0,0x16EA); (0x16F1,0x16F8); (0x1700,0x1711); (0x171F,0x1731); (0x1740,0x1751);
    (0x1760,0x176C); (0x176E,0x1770); (0x1780,0x17B3); (0x17D7,0x17D7); (0x17DC,0x17DC);
    (0x1820,0x1878); (0x1880,0x1884); (0x1887,0x18A8); (0x18AA,0x18AA); (0x18B0,0x18F5);
    (0x1900,0x191E); (0x1950,0x196D); (0x1970,0x1974); (0x1980,0x19AB); (0x19B0,0x19C9);
    (0x1A00,0x1A16); (0x1A20,0x1A54); (0x1AA7,0x1AA7); (0x1B05,0x1B33); (0x1B45,0x1B4C);
    (0x1B83,0x1BA0); (0x1BAE,0x1BAF); (0x1BBA,0x1BE5); (0x1C00,0x1C23); (0x1C4D,0x1C4F);
    (0x1C5A,0x1C7D); (0x1C80,0x1C88); (0x1C90,0x1CBA); (0x1CBD,0x1CBF); (0x1CE9,0x1CEC);
    (0x1CEE,0x1CF3); (0x1CF5,0x1CF6); (0x1CFA,0x1CFA); (0x1D00,0x1DBF); (0x1E00,0x1F15);
    (0x1F18,0x1F1D); (0x1F20,0x1F45); (0x1F48,0x1F4D); (0x1F50,0x1F57); (0x1F59,0x1F59);
    (0x1F5B,0x1F5B); (0x1F5D,0x1F5D); (0x1F5F,0x1F7D); (0x1F80,0x1FB4); (0x1FB6,0x1FBC);
    (0x1FBE,0x1FBE); (0x1FC2,0x1FC4); (0x1FC6,0x1FCC); (0x1FD0,0x1FD3); (0x1FD6,0x1FDB);
    (0x1FE0,0x1FEC); (0x1FF2,0x1FF4); (0x1FF6,0x1FFC); (0x2071,0x2071); (0x207F,0x207F);
    (0x2090,0x209C); (0x2102,0x2102); (0x2107,0x2107); (0x210A,0x2113); (0x2115,0x2115);
    (0x2119,0x211D); (0x2124,0x2124); (0x2126,0x2126); (0x2128,0x2128); (0x212A,0x212D);
    (0x212F,0x2139); (0x213C,0x213F); (0x2145,0x2149); (0x214E,0x214E); (0x2183,0x2184);
    (0x2C00,0x2CE4); (0x2CEB,0x2CEE); (0x2CF2,0x2CF3); (0x2D00,0x2D25); (0x2D27,0x2D27);
    (0x2D2D,0x2D2D); (0x2D30,0x2D67); (0x2D6F,0x2D6F); (0x2D80,0x2D96); (0x2DA0,0x2DA6);
    (0x2DA8,0x2DAE); (0x2DB0,0x2DB6); (0x2DB8,0x2DBE); (0x2DC0,0x2DC6); (0x2DC8,0x2DCE);
    (0x2DD0,0x2DD6); (0x2DD8,0x2DDE); (0x2E2F,0x2E2F); (0x3005,0x3006); (0x3031,0x3035);
    (0x303B,0x303C); (0x3041,0x3096); (0x309D,0x309F); (0x30A1,0x30FA); (0x30FC,0x30FF);
    (0x3105,0x312F); (0x3131,0x318E); (0x31A0,0x31BF); (0x31F0,0x31FF); (0x3400,0x4DBF);
    (0x4E00,0xA48C); (0xA4D0,0xA4FD); (0xA500,0xA60C); (0xA610,0xA61F); (0xA62A,0xA62B);
    (0xA640,0xA66E); (0xA67F,0xA69D); (0xA6A0,0xA6E5); (0xA717,0xA71F); (0xA722,0xA788);
    (0xA78B,0xA7CA); (0xA7D0,0xA7D1); (0xA7D3,0xA7D3); (0xA7D5,0xA7D9); (0xA7F2,0xA801);
    (0xA803,0xA805); (0xA807,0xA80A); (0xA80C,0xA822); (0xA840,0xA873); (0xA882,0xA8B3);
    (0xA8F2,0xA8F7); (0xA8FB,0xA8FB); (0xA8FD,0xA8FE); (0xA90A,0xA925); (0xA930,0xA946);
    (0xA960,0xA97C); (0xA984,0xA9B2); (0xA9CF,0xA9CF); (0xA9E0,0xA9E4); (0xA9E6,0xA9EF);
    (0xA9FA,0xA9FE); (0xAA00,0xAA28); (0xAA40,0xAA42); (0xAA44,0xAA4B); (0xAA60,0xAA76);
    (0xAA7A,0xAA7A); (0xAA7E,0xAAAF); (0xAAB1,0xAAB1); (0xAAB5,0xAAB6); (0xAAB9,0xAABD);
    (0xAAC0,0xAAC0); (0xAAC2,0xAAC2); (0xAADB,0xAADD); (0xAAE0,0xAAEA); (0xAAF2,0xAAF4);
    (0xAB01,0xAB06); (0xAB09,0xAB0E); (0xAB11,0xAB16); (0xAB20,0xAB26); (0xAB28,0xAB2E);
    (0xAB30,0xAB5A); (0xAB5C,0xAB69); (0xAB70,0xABE2); (0xAC00,0xD7A3); (0xD7B0,0xD7C6);
    (0xD7CB,0xD7FB); (0xF900,0xFA6D); (0xFA70,0xFAD9); (0xFB00,0xFB06); (0xFB13,0xFB17);
    (0xFB1D,0xFB1D); (0xFB1F,0xFB28); (0xFB2A,0xFB36); (0xFB38,0xFB3C); (0xFB3E,0xFB3E);
    (0xFB40,0xFB41); (0xFB43,0xFB44); (0xFB46,0xFBB1); (0xFBD3,0xFD3D); (0xFD50,0xFD8F);
    (0xFD92,0xFDC7); (0xFDF0,0xFDFB); (0xFE70,0xFE74); (0xFE76,0xFEFC); (0xFF21,0xFF3A);
    (0xFF41,0xFF5A); (0xFF66,0xFFBE); (0xFFC2,0xFFC7); (0xFFCA,0xFFCF); (0xFFD2,0xFFD7);
    (0xFFDA,0xFFDC); (0x10000,0x1000B); (0x1000D,0x10026); (0x10028,0x1003A); (0x1003C,0x1003D);
    (0x1003F,0x1004D); (0x10050,0x1005D); (0x10080,0x100FA); (0x10280,0x1029C); (0x102A0,0x102D0);
    (0x10300,0x1031F); (0x1032D,0x10340); (0x10342,0x10349); (0x10350,0x10375); (0x10380,0x1039D);
    (0x103A0,0x103C3); (0x103C8,0x103CF); (0x10400,0x1049D); (0x104B0,0x104D3); (0x104D8,0x104FB);
    (0x10500,0x10527); (0x10530,0x10563); (0x10570,0x1057A); (0x1057C,0x1058A); (0x1058C,0x10592);
    (0x10594,0x10595); (0x10597,0x105A1); (0x105A3,0x105B1); (0x105B3,0x105B9); (0x105BB,0x105BC);
    (0x10600,0x10736); (0x10740,0x10755); (0x10760,0x10767); (0x10780,0x10785); (0x10787,0x107B0);
    (0x107B2,0x107BA); (0x10800,0x10805); (0x10808,0x10808); (0x1080A,0x10835); (0x10837,0x10838);
    (0x1083C,0x1083C); (0x1083F,0x10855); (0x10860,0x10876); (0x10880,0x1089E); (0x108E0,0x108F2);
    (0x108F4,0x108F5); (0x10900,0x10915); (0x10920,0x10939); (0x10980,0x109B7); (0x109BE,0x109BF);
    (0x10A00,0x10A00); (0x10A10,0x10A13); (0x10A15,0x10A17); (0x10A19,0x10A35); (0x10A60,0x10A7C);
    (0x10A80,0x10A9C); (0x10AC0,0x10AC7); (0x10AC9,0x10AE4); (0x10B00,0x10B35); (0x10B40,0x10B55);
    (0x10B60,0x10B72); (0x10B80,0x10B91); (0x10C00,0x10C48); (0x10C80,0x10CB2); (0x10CC0,0x10CF2);
    (0x10D00,0x10D23); (0x10E80,0x10EA9); (0x10EB0,0x10EB1); (0x10F00,0x10F1C); (0x10F27,0x10F27);
    (0x10F30,0x10F45); (0x10F70,0x10F81); (0x10FB0,0x10FC4); (0x10FE0,0x10FF6); (0x11003,0x11037);
    (0x11071,0x11072); (0x11075,0x11075); (0x11083,0x110AF); (0x110D0,0x110E8); (0x11103,0x11126);
    (0x11144,0x11144); (0x11147,0x11147); (0x11150,0x11172); (0x11176,0x11176); (0x11183,0x111B2);
    (0x111C1,0x111C4); (0x111DA,0x111DA); (0x111DC,0x111DC); (0x11200,0x11211); (0x11213,0x1122B);
    (0x11280,0x11286); (0x11288,0x11288); (0x1128A,0x1128D); (0x1128F,0x1129D); (0x1129F,0x112A8);
    (0x112B0,0x112DE); (0x11305,0x1130C); (0x1130F,0x11310); (0x11313,0x11328); (0x1132A,0x11330);
    (0x11332,0x11333); (0x11335,0x11339); (0x1133D,0x1133D); (0x11350,0x11350); (0x1135D,0x11361);
    (0x11400,0x11434); (0x11447,0x1144A); (0x1145F,0x11461); (0x11480,0x114AF); (0x114C4,0x114C5);
    (0x114C7,0x114C7); (0x11580,0x115AE); (0x115D8,0x115DB); (0x11600,0x1162F); (0x11644,0x11644);
    (0x11680,0x116AA); (0x116B8,0x116B8); (0x11700,0x1171A); (0x11740,0x11746); (0x11800,0x1182B);
    (0x118A0,0x118DF); (0x118FF,0x11906); (0x11909,0x11909); (0x1190C,0x11913); (0x11915,0x11916);
    (0x11918,0x1192F); (0x1193F,0x1193F); (0x11941,0x11941); (0x119A0,0x119A7); (0x119AA,0x119D0);
    (0x119E1,0x119E1); (0x119E3,0x119E3); (0x11A00,0x11A00); (0x11A0B,0x11A32); (0x11A3A,0x11A3A);
    (0x11A50,0x11A50); (0x11A5C,0x11A89); (0x11A9D,0x11A9D); (0x11AB0,0x11AF8); (0x11C00,0x11C08);
    (0x11C0A,0x11C2E); (0x11C40,0x11C40); (0x11C72,0x11C8F); (0x11D00,0x11D06); (0x11D08,0x11D09);
    (0x11D0B,0x11D30); (0x11D46,0x11D46); (0x11D60,0x11D65); (0x11D67,0x11D68); (0x11D6A,0x11D89);
    (0x11D98,0x11D98); (0x11EE0,0x11EF2); (0x11FB0,0x11FB0); (0x12000,0x12399); (0x12480,0x12543);
    (0x12F90,0x12FF0); (0x13000,0x1342E); (0x14400,0x14646); (0x16800,0x16A38); (0x16A40,0x16A5E);
    (0x16A70,0x16ABE); (0x16AD0,0x16AED); (0x16B00,0x16B2F); (0x16B40,0x16B43); (0x16B63,0x16B77);
    (0x16B7D,0x16B8F); (0x16E40,0x16E7F); (0x16F00,0x16F4A); (0x16F50,0x16F50); (0x16F93,0x16F9F);
    (0x16FE0,0x16FE1); (0x16FE3,0x16FE3); (0x17000,0x187F7); (0x18800,0x18CD5); (0x18D00,0x18D08);
    (0x1AFF0,0x1AFF3); (0x1AFF5,0x1AFFB); (0x1AFFD,0x1AFFE); (0x1B000,0x1B122); (0x1B150,0x1B152);
    (0x1B164,0x1B167); (0x1B170,0x1B2FB); (0x1BC00,0x1BC6A); (0x1BC70,0x1BC7C); (0x1BC80,0x1BC88);
    (0x1BC90,0x1BC99); (0x1D400,0x1D454); (0x1D456,0x1D49C); (0x1D49E,0x1D49F); (0x1D4A2,0x1D4A2);
    (0x1D4A5,0x1D4A6); (0x1D4A9,0x1D4AC); (0x1D4AE,0x1D4B9); (0x1D4BB,0x1D4BB); (0x1D4BD,0x1D4C3);
    (0x1D4C5,0x1D505); (0x1D507,0x1D50A); (0x1D50D,0x1D514); (0x1D516,0x1D51C); (0x1D51E,0x1D539);
    (0x1D53B,0x1D53E); (0x1D540,0x1D544); (0x1D546,0x1D546); (0x1D54A,0x1D550); (0x1D552,0x1D6A5);
    (0x1D6A8,0x1D6C0); (0x1D6C2,0x1D6DA); (0x1D6DC,0x1D6FA); (0x1D6FC,0x1D714); (0x1D716,0x1D734);
    (0x1D736,0x1D74E); (0x1D750,0x1D76E); (0x1D770,0x1D788); (0x1D78A,0x1D7A8); (0x1D7AA,0x1D7C2);
    (0x1D7C4,0x1D7CB); (0x1DF00,0x1DF1E); (0x1E100,0x1E12C); (0x1E137,0x1E13D); (0x1E14E,0x1E14E);
    (0x1E290,0x1E2AD); (0x1E2C0,0x1E2EB); (0x1E7E0,0x1E7E6); (0x1E7E8,0x1E7EB); (0x1E7ED,0x1E7EE);
    (0x1E7F0,0x1E7FE); (0x1E800,0x1E8C4); (0x1E900,0x1E943); (0x1E94B,0x1E94B); (0x1EE00,0x1EE03);
    (0x1EE05,0x1EE1F); (0x1EE21,0x1EE22); (0x1EE24,0x1EE24); (0x1EE27,0x1EE27); (0x1EE29,0x1EE32);
    (0x1EE34,0x1EE37); (0x1EE39,0x1EE39); (0x1EE3B,0x1EE3B); (0x1EE42,0x1EE42); (0x1EE47,0x1EE47);
    (0x1EE49,0x1EE49); (0x1EE4B,0x1EE4B); (0x1EE4D,0x1EE4F); (0x1EE51,0x1EE52); (0x1EE54,0x1EE54);
    (0x1EE57,0x1EE57); (0x1EE59,0x1EE59); (0x1EE5B,0x1EE5B); (0x1EE5D,0x1EE5D); (0x1EE5F,0x1EE5F);
    (0x1EE61,0x1EE62); (0x1EE64,0x1EE64); (0x1EE67,0x1EE6A); (0x1EE6C,0x1EE72); (0x1EE74,0x1EE77);
    (0x1EE79,0x1EE7C); (0x1EE7E,0x1EE7E); (0x1EE80,0x1EE89); (0x1EE8B,0x1EE9B); (0x1EEA1,0x1EEA3);
    (0x1EEA5,0x1EEA9); (0x1EEAB,0x1EEBB); (0x20000,0x2A6DF); (0x2A700,0x2B738); (0x2B740,0x2B81D);
    (0x2B820,0x2CEA1); (0x2CEB0,0x2EBE0); (0x2F800,0x2FA1D); (0x30000,0x3134A) ].

(** Code points above U+007F with the Uppercase property, as
    (first, last, stride). *)
Definition uppercase_ranges : list (Z * Z * Z) :=
  [ (0xC0,0xD6,1); (0xD8,0xDE,1); (0x100,0x136,2); (0x139,0x147,2); (0x14A,0x178,2);
    (0x179,0x17D,2); (0x181,0x182,1); (0x184,0x186,2); (0x187,0x189,2); (0x18A,0x18B,1);
    (0x18E,0x191,1); (0x193,0x194,1); (0x196,0x198,1); (0x19C,0x19D,1); (0x19F,0x1A0,1);
    (0x1A2,0x1A6,2); (0x1A7,0x1A9,2); (0x1AC,0x1AE,2); (0x1AF,0x1B1,2); (0x1B2,0x1B3,1);
    (0x1B5,0x1B7,2); (0x1B8,0x1B8,1); (0x1BC,0x1BC,1); (0x1C4,0x1C4,1); (0x1C7,0x1C7,1);
    (0x1CA,0x1CA,1); (0x1CD,0x1DB,2); (0x1DE,0x1EE,2); (0x1F1,0x1F1,1); (0x1F4,0x1F6,2);
    (0x1F7,0x1F8,1); (0x1FA,0x232,2); (0x23A,0x23B,1); (0x23D,0x23E,1); (0x241,0x243,2);
    (0x244,0x246,1); (0x248,0x24E,2); (0x370,0x372,2); (0x376,0x376,1); (0x37F,0x37F,1);
    (0x386,0x388,2); (0x389,0x38A,1); (0x38C,0x38E,2); (0x38F,0x391,2); (0x392,0x3A1,1);
    (0x3A3,0x3AB,1); (0x3CF,0x3CF,1); (0x3D2,0x3D4,1); (0x3D8,0x3EE,2); (0x3F4,0x3F4,1);
    (0x3F7,0x3F9,2); (0x3FA,0x3FA,1); (0x3FD,0x42F,1); (0x460,0x480,2); (0x48A,0x4C0,2);
    (0x4C1,0x4CD,2); (0x4D0,0x52E,2); (0x531,0x556,1); (0x10A0,0x10C5,1); (0x10C7,0x10C7,1);
    (0x10CD,0x10CD,1); (0x13A0,0x13F5,1); (0x1C90,0x1CBA,1); (0x1CBD,0x1CBF,1); (0x1E00,0x1E94,2);
    (0x1E9E,0x1EFE,2); (0x1F08,0x1F0F,1); (0x1F18,0x1F1D,1); (0x1F28,0x1F2F,1); (0x1F38,0x1F3F,1);
    (0x1F48,0x1F4D,1); (0x1F59,0x1F5F,2); (0x1F68,0x1F6F,1); (0x1FB8,0x1FBB,1); (0x1FC8,0x1FCB,1);
    (0x1FD8,0x1FDB,1); (0x1FE8,0x1FEC,1); (0x1FF8,0x1FFB,1); (0x2102,0x2102,1); (0x2107,0x2107,1);
    (0x210B,0x210D,1); (0x2110,0x2112,1); (0x2115,0x2115,1); (0x2119,0x211D,1); (0x2124,0x212A,2);
    (0x212B,0x212D,1); (0x2130,0x2133,1); (0x213E,0x213F,1); (0x2145,0x2145,1); (0x2160,0x216F,1);
    (0x2183,0x2183,1); (0x24B6,0x24CF,1); (0x2C00,0x2C2F,1); (0x2C60,0x2C62,2); (0x2C63,0x2C64,1);
    (0x2C67,0x2C6D,2); (0x2C6E,0x2C70,1); (0x2C72,0x2C72,1); (0x2C75,0x2C75,1); (0x2C7E,0x2C80,1);
    (0x2C82,0x2CE2,2); (0x2CEB,0x2CED,2); (0x2CF2,0x2CF2,1); (0xA640,0xA66C,2); (0xA680,0xA69A,2);
    (0xA722,0xA72E,2); (0xA732,0xA76E,2); (0xA779,0xA77D,2); (0xA77E,0xA786,2); (0xA78B,0xA78D,2);
    (0xA790,0xA792,2); (0xA796,0xA7AA,2); (0xA7AB,0xA7AE,1); (0xA7B0,0xA7B4,1); (0xA7B6,0xA7C4,2);
    (0xA7C5,0xA7C7,1); (0xA7C9,0xA7C9,1); (0xA7D0,0xA7D0,1); (0xA7D6,0xA7D8,2); (0xA7F5,0xA7F5,1);
    (0xFF21,0xFF3A,1); (0x10400,0x10427,1); (0x104B0,0x104D3,1); (0x10570,0x1057A,1);
    (0x1057C,0x1058A,1); (0x1058C,0x10592,1); (0x10594,0x10595,1); (0x10C80,0x10CB2,1);
    (0x118A0,0x118BF,1); (0x16E40,0x16E5F,1); (0x1D400,0x1D419,1); (0x1D434,0x1D44D,1);
    (0x1D468,0x1D481,1); (0x1D49C,0x1D49E,2); (0x1D49F,0x1D49F,1); (0x1D4A2,0x1D4A2,1);
    (0x1D4A5,0x1D4A6,1); (0x1D4A9,0x1D4AC,1); (0x1D4AE,0x1D4B5,1); (0x1D4D0,0x1D4E9,1);
    (0x1D504,0x1D505,1); (0x1D507,0x1D50A,1); (0x1D50D,0x1D514,1); (0x1D516,0x1D51C,1);
    (0x1D538,0x1D539,1); (0x1D53B,0x1D53E,1); (0x1D540,0x1D544,1); (0x1D546,0x1D546,1);
    (0x1D54A,0x1D550,1); (0x1D56C,0x1D585,1); (0x1D5A0,0x1D5B9,1); (0x1D5D4,0x1D5ED,1);
    (0x1D608,0x1D621,1); (0x1D63C,0x1D655,1); (0x1D670,0x1D689,1); (0x1D6A8,0x1D6C0,1);
    (0x1D6E2,0x1D6FA,1); (0x1D71C,0x1D734,1); (0x1D756,0x1D76E,1); (0x1D790,0x1D7A8,1);
    (0x1D7CA,0x1D7CA,1); (0x1E900,0x1E921,1); (0x1F130,0x1F149,1); (0x1F150,0x1F169,1);
    (0x1F170,0x1F189,1) ].

(** Code points above U+007F with the Lowercase property, as
    (first, last, stride). *)
Definition lowercase_ranges : list (Z * Z * Z) :=
  [ (0xAA,0xAA,1); (0xB5,0xB5,1); (0xBA,0xBA,1); (0xDF,0xF6,1); (0xF8,0xFF,1); (0x101,0x137,2);
    (0x138,0x148,2); (0x149,0x177,2); (0x17A,0x17E,2); (0x17F,0x180,1); (0x183,0x185,2);
    (0x188,0x188,1); (0x18C,0x18D,1); (0x192,0x192,1); (0x195,0x195,1); (0x199,0x19B,1);
    (0x19E,0x19E,1); (0x1A1,0x1A5,2); (0x1A8,0x1AA,2); (0x1AB,0x1AD,2); (0x1B0,0x1B0,1);
    (0x1B4,0x1B6,2); (0x1B9,0x1BA,1); (0x1BD,0x1BF,1); (0x1C6,0x1C6,1); (0x1C9,0x1C9,1);
    (0x1CC,0x1DC,2); (0x1DD,0x1EF,2); (0x1F0,0x1F0,1); (0x1F3,0x1F5,2); (0x1F9,0x233,2);
    (0x234,0x239,1); (0x23C,0x23C,1); (0x23F,0x240,1); (0x242,0x242,1); (0x247,0x24F,2);
    (0x250,0x293,1); (0x295,0x2B8,1); (0x2C0,0x2C1,1); (0x2E0,0x2E4,1); (0x345,0x345,1);
    (0x371,0x373,2); (0x377,0x377,1); (0x37A,0x37D,1); (0x390,0x390,1); (0x3AC,0x3CE,1);
    (0x3D0,0x3D1,1); (0x3D5,0x3D7,1); (0x3D9,0x3EF,2); (0x3F0,0x3F3,1); (0x3F5,0x3F5,1);
    (0x3F8,0x3F8,1); (0x3FB,0x3FC,1); (0x430,0x45F,1); (0x461,0x481,2); (0x48B,0x4BF,2);
    (0x4C2,0x4CE,2); (0x4CF,0x52F,2); (0x560,0x588,1); (0x10D0,0x10FA,1); (0x10FD,0x10FF,1);
    (0x13F8,0x13FD,1); (0x1C80,0x1C88,1); (0x1D00,0x1DBF,1); (0x1E01,0x1E95,2); (0x1E96,0x1E9D,1);
    (0x1E9F,0x1EFF,2); (0x1F00,0x1F07,1); (0x1F10,0x1F15,1); (0x1F20,0x1F27,1); (0x1F30,0x1F37,1);
    (0x1F40,0x1F45,1); (0x1F50,0x1F57,1); (0x1F60,0x1F67,1); (0x1F70,0x1F7D,1); (0x1F80,0x1F87,1);
    (0x1F90,0x1F97,1); (0x1FA0,0x1FA7,1); (0x1FB0,0x1FB4,1); (0x1FB6,0x1FB7,1); (0x1FBE,0x1FBE,1);
    (0x1FC2,0x1FC4,1); (0x1FC6,0x1FC7,1); (0x1FD0,0x1FD3,1); (0x1FD6,0x1FD7,1); (0x1FE0,0x1FE7,1);
    (0x1FF2,0x1FF4,1); (0x1FF6,0x1FF7,1); (0x2071,0x2071,1); (0x207F,0x207F,1); (0x2090,0x209C,1);
    (0x210A,0x210A,1); (0x210E,0x210F,1); (0x2113,0x2113,1); (0x212F,0x212F,1); (0x2134,0x2134,1);
    (0x2139,0x2139,1); (0x213C,0x213D,1); (0x2146,0x2149,1); (0x214E,0x214E,1); (0x2170,0x217F,1);
    (0x2184,0x2184,1); (0x24D0,0x24E9,1); (0x2C30,0x2C5F,1); (0x2C61,0x2C61,1); (0x2C65,0x2C66,1);
    (0x2C68,0x2C6C,2); (0x2C71,0x2C73,2); (0x2C74,0x2C76,2); (0x2C77,0x2C7D,1); (0x2C81,0x2CE3,2);
    (0x2CE4,0x2CE4,1); (0x2CEC,0x2CEE,2); (0x2CF3,0x2CF3,1); (0x2D00,0x2D25,1); (0x2D27,0x2D27,1);
    (0x2D2D,0x2D2D,1); (0xA641,0xA66D,2); (0xA681,0xA69B,2); (0xA69C,0xA69D,1); (0xA723,0xA72F,2);
    (0xA730,0xA731,1); (0xA733,0xA76F,2); (0xA770,0xA778,1); (0xA77A,0xA77C,2); (0xA77F,0xA787,2);
    (0xA78C,0xA78E,2); (0xA791,0xA793,2); (0xA794,0xA795,1); (0xA797,0xA7A9,2); (0xA7AF,0xA7AF,1);
    (0xA7B5,0xA7C3,2); (0xA7C8,0xA7CA,2); (0xA7D1,0xA7D9,2); (0xA7F6,0xA7F8,2); (0xA7F9,0xA7FA,1);
    (0xAB30,0xAB5A,1); (0xAB5C,0xAB68,1); (0xAB70,0xABBF,1); (0xFB00,0xFB06,1); (0xFB13,0xFB17,1);
    (0xFF41,0xFF5A,1); (0x10428,0x1044F,1); (0x104D8,0x104FB,1); (0x10597,0x105A1,1);
    (0x105A3,0x105B1,1); (0x105B3,0x105B9,1); (0x105BB,0x105BC,1); (0x10780,0x10780,1);
    (0x10783,0x10785,1); (0x10787,0x107B0,1); (0x107B2,0x107BA,1); (0x10CC0,0x10CF2,1);
    (0x118C0,0x118DF,1); (0x16E60,0x16E7F,1); (0x1D41A,0x1D433,1); (0x1D44E,0x1D454,1);
    (0x1D456,0x1D467,1); (0x1D482,0x1D49B,1); (0x1D4B6,0x1D4B9,1); (0x1D4BB,0x1D4BD,2);
    (0x1D4BE,0x1D4C3,1); (0x1D4C5,0x1D4CF,1); (0x1D4EA,0x1D503,1); (0x1D51E,0x1D537,1);
    (0x1D552,0x1D56B,1); (0x1D586,0x1D59F,1); (0x1D5BA,0x1D5D3,1); (0x1D5EE,0x1D607,1);
    (0x1D622,0x1D63B,1); (0x1D656,0x1D66F,1); (0x1D68A,0x1D6A5,1); (0x1D6C2,0x1D6DA,1);
    (0x1D6DC,0x1D6E1,1); (0x1D6FC,0x1D714,1); (0x1D716,0x1D71B,1); (0x1D736,0x1D74E,1);
    (0x1D750,0x1D755,1); (0x1D770,0x1D788,1); (0x1D78A,0x1D78F,1); (0x1D7AA,0x1D7C2,1);
    (0x1D7C4,0x1D7C9,1); (0x1D7CB,0x1D7CB,1); (0x1DF00,0x1DF09,1); (0x1DF0B,0x1DF1E,1);
    (0x1E922,0x1E943,1) ].

(** One-to-one uppercase mappings above U+007F, as (first, last, stride,
    offset): a listed code point [c] is mapped to [c + offset]. *)
Definition toupper_simple : list (Z * Z * Z * Z) :=
  [ (0xB5,0xB5,1,743); (0xE0,0xF6,1,(-32)); (0xF8,0xFE,1,(-32)); (0xFF,0xFF,1,121);
    (0x101,0x12F,2,(-1)); (0x131,0x131,1,(-232)); (0x133,0x137,2,(-1)); (0x13A,0x148,2,(-1));
    (0x14B,0x177,2,(-1)); (0x17A,0x17E,2,(-1)); (0x17F,0x17F,1,(-300)); (0x180,0x180,1,195);
    (0x183,0x185,2,(-1)); (0x188,0x188,1,(-1)); (0x18C,0x18C,1,(-1)); (0x192,0x192,1,(-1));
    (0x195,0x195,1,97); (0x199,0x199,1,(-1)); (0x19A,0x19A,1,163); (0x19E,0x19E,1,130);
    (0x1A1,0x1A5,2,(-1)); (0x1A8,0x1A8,1,(-1)); (0x1AD,0x1AD,1,(-1)); (0x1B0,0x1B0,1,(-1));
    (0x1B4,0x1B6,2,(-1)); (0x1B9,0x1B9,1,(-1)); (0x1BD,0x1BD,1,(-1)); (0x1BF,0x1BF,1,56);
    (0x1C5,0x1C5,1,(-1)); (0x1C6,0x1C6,1,(-2)); (0x1C8,0x1C8,1,(-1)); (0x1C9,0x1C9,1,(-2));
    (0x1CB,0x1CB,1,(-1)); (0x1CC,0x1CC,1,(-2)); (0x1CE,0x1DC,2,(-1)); (0x1DD,0x1DD,1,(-79));
    (0x1DF,0x1EF,2,(-1)); (0x1F2,0x1F2,1,(-1)); (0x1F3,0x1F3,1,(-2)); (0x1F5,0x1F5,1,(-1));
    (0x1F9,0x21F,2,(-1)); (0x223,0x233,2,(-1)); (0x23C,0x23C,1,(-1)); (0x23F,0x240,1,10815);
    (0x242,0x242,1,(-1)); (0x247,0x24F,2,(-1)); (0x250,0x250,1,10783); (0x251,0x251,1,10780);
    (0x252,0x252,1,10782); (0x253,0x253,1,(-210)); (0x254,0x254,1,(-206)); (0x256,0x257,1,(-205));
    (0x259,0x259,1,(-202)); (0x25B,0x25B,1,(-203)); (0x25C,0x25C,1,42319); (0x260,0x260,1,(-205));
    (0x261,0x261,1,42315); (0x263,0x263,1,(-207)); (0x265,0x265,1,42280); (0x266,0x266,1,42308);
    (0x268,0x268,1,(-209)); (0x269,0x269,1,(-211)); (0x26A,0x26A,1,42308); (0x26B,0x26B,1,10743);
    (0x26C,0x26C,1,42305); (0x26F,0x26F,1,(-211)); (0x271,0x271,1,10749); (0x272,0x272,1,(-213));
    (0x275,0x275,1,(-214)); (0x27D,0x27D,1,10727); (0x280,0x280,1,(-218)); (0x282,0x282,1,42307);
    (0x283,0x283,1,(-218)); (0x287,0x287,1,42282); (0x288,0x288,1,(-218)); (0x289,0x289,1,(-69));
    (0x28A,0x28B,1,(-217)); (0x28C,0x28C,1,(-71)); (0x292,0x292,1,(-219)); (0x29D,0x29D,1,42261);
    (0x29E,0x29E,1,42258); (0x345,0x345,1,84); (0x371,0x373,2,(-1)); (0x377,0x377,1,(-1));
    (0x37B,0x37D,1,130); (0x3AC,0x3AC,1,(-38)); (0x3AD,0x3AF,1,(-37)); (0x3B1,0x3C1,1,(-32));
    (0x3C2,0x3C2,1,(-31)); (0x3C3,0x3CB,1,(-32)); (0x3CC,0x3CC,1,(-64)); (0x3CD,0x3CE,1,(-63));
    (0x3D0,0x3D0,1,(-62)); (0x3D1,0x3D1,1,(-57)); (0x3D5,0x3D5,1,(-47)); (0x3D6,0x3D6,1,(-54));
    (0x3D7,0x3D7,1,(-8)); (0x3D9,0x3EF,2,(-1)); (0x3F0,0x3F0,1,(-86)); (0x3F1,0x3F1,1,(-80));
    (0x3F2,0x3F2,1,7); (0x3F3,0x3F3,1,(-116)); (0x3F5,0x3F5,1,(-96)); (0x3F8,0x3F8,1,(-1));
    (0x3FB,0x3FB,1,(-1)); (0x430,0x44F,1,(-32)); (0x450,0x45F,1,(-80)); (0x461,0x481,2,(-1));
    (0x48B,0x4BF,2,(-1)); (0x4C2,0x4CE,2,(-1)); (0x4CF,0x4CF,1,(-15)); (0x4D1,0x52F,2,(-1));
    (0x561,0x586,1,(-48)); (0x10D0,0x10FA,1,3008); (0x10FD,0x10FF,1,3008); (0x13F8,0x13FD,1,(-8));
    (0x1C80,0x1C80,1,(-6254)); (0x1C81,0x1C81,1,(-6253)); (0x1C82,0x1C82,1,(-6244));
    (0x1C83,0x1C84,1,(-6242)); (0x1C85,0x1C85,1,(-6243)); (0x1C86,0x1C86,1,(-6236));
    (0x1C87,0x1C87,1,(-6181)); (0x1C88,0x1C88,1,35266); (0x1D79,0x1D79,1,35332);
    (0x1D7D,0x1D7D,1,3814); (0x1D8E,0x1D8E,1,35384); (0x1E01,0x1E95,2,(-1));
    (0x1E9B,0x1E9B,1,(-59)); (0x1EA1,0x1EFF,2,(-1)); (0x1F00,0x1F07,1,8); (0x1F10,0x1F15,1,8);
    (0x1F20,0x1F27,1,8); (0x1F30,0x1F37,1,8); (0x1F40,0x1F45,1,8); (0x1F51,0x1F57,2,8);
    (0x1F60,0x1F67,1,8); (0x1F70,0x1F71,1,74); (0x1F72,0x1F75,1,86); (0x1F76,0x1F77,1,100);
    (0x1F78,0x1F79,1,128); (0x1F7A,0x1F7B,1,112); (0x1F7C,0x1F7D,1,126); (0x1FB0,0x1FB1,1,8);
    (0x1FBE,0x1FBE,1,(-7205)); (0x1FD0,0x1FD1,1,8); (0x1FE0,0x1FE1,1,8); (0x1FE5,0x1FE5,1,7);
    (0x214E,0x214E,1,(-28)); (0x2170,0x217F,1,(-16)); (0x2184,0x2184,1,(-1));
    (0x24D0,0x24E9,1,(-26)); (0x2C30,0x2C5F,1,(-48)); (0x2C61,0x2C61,1,(-1));
    (0x2C65,0x2C65,1,(-10795)); (0x2C66,0x2C66,1,(-10792)); (0x2C68,0x2C6C,2,(-1));
    (0x2C73,0x2C73,1,(-1)); (0x2C76,0x2C76,1,(-1)); (0x2C81,0x2CE3,2,(-1)); (0x2CEC,0x2CEE,2,(-1));
    (0x2CF3,0x2CF3,1,(-1)); (0x2D00,0x2D25,1,(-7264)); (0x2D27,0x2D27,1,(-7264));
    (0x2D2D,0x2D2D,1,(-7264)); (0xA641,0xA66D,2,(-1)); (0xA681,0xA69B,2,(-1));
    (0xA723,0xA72F,2,(-1)); (0xA733,0xA76F,2,(-1)); (0xA77A,0xA77C,2,(-1)); (0xA77F,0xA787,2,(-1));
    (0xA78C,0xA78C,1,(-1)); (0xA791,0xA793,2,(-1)); (0xA794,0xA794,1,48); (0xA797,0xA7A9,2,(-1));
    (0xA7B5,0xA7C3,2,(-1)); (0xA7C8,0xA7CA,2,(-1)); (0xA7D1,0xA7D1,1,(-1)); (0xA7D7,0xA7D9,2,(-1));
    (0xA7F6,0xA7F6,1,(-1)); (0xAB53,0xAB53,1,(-928)); (0xAB70,0xABBF,1,(-38864));
    (0xFF41,0xFF5A,1,(-32)); (0x10428,0x1044F,1,(-40)); (0x104D8,0x104FB,1,(-40));
    (0x10597,0x105A1,1,(-39)); (0x105A3,0x105B1,1,(-39)); (0x105B3,0x105B9,1,(-39));
    (0x105BB,0x105BC,1,(-39)); (0x10CC0,0x10CF2,1,(-64)); (0x118C0,0x118DF,1,(-32));
    (0x16E60,0x16E7F,1,(-32)); (0x1E922,0x1E943,1,(-34)) ].

(** Uppercase mappings to more than one code point (SpecialCasing). *)
Definition toupper_special : list (Z * list Z) :=
  [ (0xDF,[0x53; 0x53]); (0x149,[0x2BC; 0x4E]); (0x1F0,[0x4A; 0x30C]); (0x390,[0x399; 0x308;
    0x301]); (0x3B0,[0x3A5; 0x308; 0x301]); (0x587,[0x535; 0x552]); (0x1E96,[0x48; 0x331]);
    (0x1E97,[0x54; 0x308]); (0x1E98,[0x57; 0x30A]); (0x1E99,[0x59; 0x30A]); (0x1E9A,[0x41; 0x2BE]);
    (0x1F50,[0x3A5; 0x313]); (0x1F52,[0x3A5; 0x313; 0x300]); (0x1F54,[0x3A5; 0x313; 0x301]);
    (0x1F56,[0x3A5; 0x313; 0x342]); (0x1F80,[0x1F08; 0x399]); (0x1F81,[0x1F09; 0x399]);
    (0x1F82,[0x1F0A; 0x399]); (0x1F83,[0x1F0B; 0x399]); (0x1F84,[0x1F0C; 0x399]); (0x1F85,[0x1F0D;
    0x399]); (0x1F86,[0x1F0E; 0x399]); (0x1F87,[0x1F0F; 0x399]); (0x1F88,[0x1F08; 0x399]);
    (0x1F89,[0x1F09; 0x399]); (0x1F8A,[0x1F0A; 0x399]); (0x1F8B,[0x1F0B; 0x399]); (0x1F8C,[0x1F0C;
    0x399]); (0x1F8D,[0x1F0D; 0x399]); (0x1F8E,[0x1F0E; 0x399]); (0x1F8F,[0x1F0F; 0x399]);
    (0x1F90,[0x1F28; 0x399]); (0x1F91,[0x1F29; 0x399]); (0x1F92,[0x1F2A; 0x399]); (0x1F93,[0x1F2B;
    0x399]); (0x1F94,[0x1F2C; 0x399]); (0x1F95,[0x1F2D; 0x399]); (0x1F96,[0x1F2E; 0x399]);
    (0x1F97,[0x1F2F; 0x399]); (0x1F98,[0x1F28; 0x399]); (0x1F99,[0x1F29; 0x399]); (0x1F9A,[0x1F2A;
    0x399]); (0x1F9B,[0x1F2B; 0x399]); (0x1F9C,[0x1F2C; 0x399]); (0x1F9D,[0x1F2D; 0x399]);
    (0x1F9E,[0x1F2E; 0x399]); (0x1F9F,[0x1F2F; 0x399]); (0x1FA0,[0x1F68; 0x399]); (0x1FA1,[0x1F69;
    0x399]); (0x1FA2,[0x1F6A; 0x399]); (0x1FA3,[0x1F6B; 0x399]); (0x1FA4,[0x1F6C; 0x399]);
    (0x1FA5,[0x1F6D; 0x399]); (0x1FA6,[0x1F6E; 0x399]); (0x1FA7,[0x1F6F; 0x399]); (0x1FA8,[0x1F68;
    0x399]); (0x1FA9,[0x1F69; 0x399]); (0x1FAA,[0x1F6A; 0x399]); (0x1FAB,[0x1F6B; 0x399]);
    (0x1FAC,[0x1F6C; 0x399]); (0x1FAD,[0x1F6D; 0x399]); (0x1FAE,[0x1F6E; 0x399]); (0x1FAF,[0x1F6F;
    0x399]); (0x1FB2,[0x1FBA; 0x399]); (0x1FB3,[0x391; 0x399]); (0x1FB4,[0x386; 0x399]);
    (0x1FB6,[0x391; 0x342]); (0x1FB7,[0x391; 0x342; 0x399]); (0x1FBC,[0x391; 0x399]);
    (0x1FC2,[0x1FCA; 0x399]); (0x1FC3,[0x397; 0x399]); (0x1FC4,[0x389; 0x399]); (0x1FC6,[0x397;
    0x342]); (0x1FC7,[0x397; 0x342; 0x399]); (0x1FCC,[0x397; 0x399]); (0x1FD2,[0x399; 0x308;
    0x300]); (0x1FD3,[0x399; 0x308; 0x301]); (0x1FD6,[0x399; 0x342]); (0x1FD7,[0x399; 0x308;
    0x342]); (0x1FE2,[0x3A5; 0x308; 0x300]); (0x1FE3,[0x3A5; 0x308; 0x301]); (0x1FE4,[0x3A1;
    0x313]); (0x1FE6,[0x3A5; 0x342]); (0x1FE7,[0x3A5; 0x308; 0x342]); (0x1FF2,[0x1FFA; 0x399]);
    (0x1FF3,[0x3A9; 0x399]); (0x1FF4,[0x38F; 0x399]); (0x1FF6,[0x3A9; 0x342]); (0x1FF7,[0x3A9;
    0x342; 0x399]); (0x1FFC,[0x3A9; 0x399]); (0xFB00,[0x46; 0x46]); (0xFB01,[0x46; 0x49]);
    (0xFB02,[0x46; 0x4C]); (0xFB03,[0x46; 0x46; 0x49]); (0xFB04,[0x46; 0x46; 0x4C]); (0xFB05,[0x53;
    0x54]); (0xFB06,[0x53; 0x54]); (0xFB13,[0x544; 0x546]); (0xFB14,[0x544; 0x535]); (0xFB15,[0x544;
    0x53B]); (0xFB16,[0x54E; 0x546]); (0xFB17,[0x544; 0x53D]) ].

(** One-to-one lowercase mappings above U+007F, as (first, last, stride,
    offset). *)
Definition tolower_simple : list (Z * Z * Z * Z) :=
  [ (0xC0,0xD6,1,32); (0xD8,0xDE,1,32); (0x100,0x12E,2,1); (0x132,0x136,2,1); (0x139,0x147,2,1);
    (0x14A,0x176,2,1); (0x178,0x178,1,(-121)); (0x179,0x17D,2,1); (0x181,0x181,1,210);
    (0x182,0x184,2,1); (0x186,0x186,1,206); (0x187,0x187,1,1); (0x189,0x18A,1,205);
    (0x18B,0x18B,1,1); (0x18E,0x18E,1,79); (0x18F,0x18F,1,202); (0x190,0x190,1,203);
    (0x191,0x191,1,1); (0x193,0x193,1,205); (0x194,0x194,1,207); (0x196,0x196,1,211);
    (0x197,0x197,1,209); (0x198,0x198,1,1); (0x19C,0x19C,1,211); (0x19D,0x19D,1,213);
    (0x19F,0x19F,1,214); (0x1A0,0x1A4,2,1); (0x1A6,0x1A6,1,218); (0x1A7,0x1A7,1,1);
    (0x1A9,0x1A9,1,218); (0x1AC,0x1AC,1,1); (0x1AE,0x1AE,1,218); (0x1AF,0x1AF,1,1);
    (0x1B1,0x1B2,1,217); (0x1B3,0x1B5,2,1); (0x1B7,0x1B7,1,219); (0x1B8,0x1B8,1,1);
    (0x1BC,0x1BC,1,1); (0x1C4,0x1C4,1,2); (0x1C5,0x1C5,1,1); (0x1C7,0x1C7,1,2); (0x1C8,0x1C8,1,1);
    (0x1CA,0x1CA,1,2); (0x1CB,0x1DB,2,1); (0x1DE,0x1EE,2,1); (0x1F1,0x1F1,1,2); (0x1F2,0x1F4,2,1);
    (0x1F6,0x1F6,1,(-97)); (0x1F7,0x1F7,1,(-56)); (0x1F8,0x21E,2,1); (0x220,0x220,1,(-130));
    (0x222,0x232,2,1); (0x23A,0x23A,1,10795); (0x23B,0x23B,1,1); (0x23D,0x23D,1,(-163));
    (0x23E,0x23E,1,10792); (0x241,0x241,1,1); (0x243,0x243,1,(-195)); (0x244,0x244,1,69);
    (0x245,0x245,1,71); (0x246,0x24E,2,1); (0x370,0x372,2,1); (0x376,0x376,1,1);
    (0x37F,0x37F,1,116); (0x386,0x386,1,38); (0x388,0x38A,1,37); (0x38C,0x38C,1,64);
    (0x38E,0x38F,1,63); (0x391,0x3A1,1,32); (0x3A3,0x3AB,1,32); (0x3CF,0x3CF,1,8);
    (0x3D8,0x3EE,2,1); (0x3F4,0x3F4,1,(-60)); (0x3F7,0x3F7,1,1); (0x3F9,0x3F9,1,(-7));
    (0x3FA,0x3FA,1,1); (0x3FD,0x3FF,1,(-130)); (0x400,0x40F,1,80); (0x410,0x42F,1,32);
    (0x460,0x480,2,1); (0x48A,0x4BE,2,1); (0x4C0,0x4C0,1,15); (0x4C1,0x4CD,2,1); (0x4D0,0x52E,2,1);
    (0x531,0x556,1,48); (0x10A0,0x10C5,1,7264); (0x10C7,0x10C7,1,7264); (0x10CD,0x10CD,1,7264);
    (0x13A0,0x13EF,1,38864); (0x13F0,0x13F5,1,8); (0x1C90,0x1CBA,1,(-3008));
    (0x1CBD,0x1CBF,1,(-3008)); (0x1E00,0x1E94,2,1); (0x1E9E,0x1E9E,1,(-7615)); (0x1EA0,0x1EFE,2,1);
    (0x1F08,0x1F0F,1,(-8)); (0x1F18,0x1F1D,1,(-8)); (0x1F28,0x1F2F,1,(-8)); (0x1F38,0x1F3F,1,(-8));
    (0x1F48,0x1F4D,1,(-8)); (0x1F59,0x1F5F,2,(-8)); (0x1F68,0x1F6F,1,(-8)); (0x1F88,0x1F8F,1,(-8));
    (0x1F98,0x1F9F,1,(-8)); (0x1FA8,0x1FAF,1,(-8)); (0x1FB8,0x1FB9,1,(-8)); (0x1FBA,0x1FBB,1,(-74));
    (0x1FBC,0x1FBC,1,(-9)); (0x1FC8,0x1FCB,1,(-86)); (0x1FCC,0x1FCC,1,(-9)); (0x1FD8,0x1FD9,1,(-8));
    (0x1FDA,0x1FDB,1,(-100)); (0x1FE8,0x1FE9,1,(-8)); (0x1FEA,0x1FEB,1,(-112));
    (0x1FEC,0x1FEC,1,(-7)); (0x1FF8,0x1FF9,1,(-128)); (0x1FFA,0x1FFB,1,(-126));
    (0x1FFC,0x1FFC,1,(-9)); (0x2126,0x2126,1,(-7517)); (0x212A,0x212A,1,(-8383));
    (0x212B,0x212B,1,(-8262)); (0x2132,0x2132,1,28); (0x2160,0x216F,1,16); (0x2183,0x2183,1,1);
    (0x24B6,0x24CF,1,26); (0x2C00,0x2C2F,1,48); (0x2C60,0x2C60,1,1); (0x2C62,0x2C62,1,(-10743));
    (0x2C63,0x2C63,1,(-3814)); (0x2C64,0x2C64,1,(-10727)); (0x2C67,0x2C6B,2,1);
    (0x2C6D,0x2C6D,1,(-10780)); (0x2C6E,0x2C6E,1,(-10749)); (0x2C6F,0x2C6F,1,(-10783));
    (0x2C70,0x2C70,1,(-10782)); (0x2C72,0x2C72,1,1); (0x2C75,0x2C75,1,1);
    (0x2C7E,0x2C7F,1,(-10815)); (0x2C80,0x2CE2,2,1); (0x2CEB,0x2CED,2,1); (0x2CF2,0x2CF2,1,1);
    (0xA640,0xA66C,2,1); (0xA680,0xA69A,2,1); (0xA722,0xA72E,2,1); (0xA732,0xA76E,2,1);
    (0xA779,0xA77B,2,1); (0xA77D,0xA77D,1,(-35332)); (0xA77E,0xA786,2,1); (0xA78B,0xA78B,1,1);
    (0xA78D,0xA78D,1,(-42280)); (0xA790,0xA792,2,1); (0xA796,0xA7A8,2,1);
    (0xA7AA,0xA7AA,1,(-42308)); (0xA7AB,0xA7AB,1,(-42319)); (0xA7AC,0xA7AC,1,(-42315));
    (0xA7AD,0xA7AD,1,(-42305)); (0xA7AE,0xA7AE,1,(-42308)); (0xA7B0,0xA7B0,1,(-42258));
    (0xA7B1,0xA7B1,1,(-42282)); (0xA7B2,0xA7B2,1,(-42261)); (0xA7B3,0xA7B3,1,928);
    (0xA7B4,0xA7C2,2,1); (0xA7C4,0xA7C4,1,(-48)); (0xA7C5,0xA7C5,1,(-42307));
    (0xA7C6,0xA7C6,1,(-35384)); (0xA7C7,0xA7C9,2,1); (0xA7D0,0xA7D0,1,1); (0xA7D6,0xA7D8,2,1);
    (0xA7F5,0xA7F5,1,1); (0xFF21,0xFF3A,1,32); (0x10400,0x10427,1,40); (0x104B0,0x104D3,1,40);
    (0x10570,0x1057A,1,39); (0x1057C,0x1058A,1,39); (0x1058C,0x10592,1,39); (0x10594,0x10595,1,39);
    (0x10C80,0x10CB2,1,64); (0x118A0,0x118BF,1,32); (0x16E40,0x16E5F,1,32); (0x1E900,0x1E921,1,34) ].

(** Lowercase mappings to more than one code point. *)
Definition tolower_special : list (Z * list Z) :=
  [ (0x130,[0x69; 0x307]) ].

(** Code points above U+007F that [str.split] treats as whitespace. *)
Definition space_ranges : list (Z * Z) :=
  [ (0x85,0x85); (0xA0,0xA0); (0x1680,0x1680); (0x2000,0x200A); (0x2028,0x2029); (0x202F,0x202F);
    (0x205F,0x205F); (0x3000,0x3000) ].

Definition in_ranges (rs : list (Z * Z)) (c : Z) : bool :=
  existsb (fun '(lo, hi) => (lo <=? c) && (c <=? hi)) rs.

Definition on_stride (lo hi k c : Z) : bool :=
  (lo <=? c) && (c <=? hi) && ((c - lo) mod k =? 0).

Definition in_strided (rs : list (Z * Z * Z)) (c : Z) : bool :=
  existsb (fun '(lo, hi, k) => on_stride lo hi k c) rs.

Definition lookup_special (t : list (Z * list Z)) (c : Z) : option (list Z) :=
  snd <$> find (fun e => fst e =? c) t.

Definition lookup_simple (t : list (Z * Z * Z * Z)) (c : Z) : option Z :=
  (fun e => c + snd e) <$> find (fun '(lo, hi, k, _) => on_stride lo hi k c) t.

(** Full case mapping of a code point above U+007F: the special entry if
    there is one, else the simple one, else the code point itself. *)
Definition case_map (simple : list (Z * Z * Z * Z)) (special : list (Z * list Z))
    (c : Z) : str :=
  match lookup_special special c with
  | Some u => u
  | None =>
      match lookup_simple simple c with
      | Some u => [u]
      | None => [c]
      end
  end.

Definition ascii_upper (c : Z) : bool := (65 <=? c) && (c <=? 90).
Definition ascii_lower (c : Z) : bool := (97 <=? c) && (c <=? 122).

(** [s.isalpha()], [s.isupper()], [s.islower()] and [s.isspace()] for the
    one-character string [s = chr(c)]. *)
Definition isalpha (c : Z) : bool :=
  if c <? 128 then ascii_upper c || ascii_lower c else in_ranges alpha_ranges c.

Definition isupper (c : Z) : bool :=
  if c <? 128 then ascii_upper c else in_strided uppercase_ranges c.

Definition islower (c : Z) : bool :=
  if c <? 128 then ascii_lower c else in_strided lowercase_ranges c.

Definition isspace (c : Z) : bool :=
  if c <? 128 then ((9 <=? c) && (c <=? 13)) || ((28 <=? c) && (c <=? 32))
  else in_ranges space_ranges c.

(** [s.upper()] and [s.lower()] for the one-character string [s = chr(c)];
    the result can have several characters. *)
Definition upper (c : Z) : str :=
  if c <? 128 then [if ascii_lower c then c - 32 else c]
  else case_map toupper_simple toupper_special c.

Definition lower (c : Z) : str :=
  if c <? 128 then [if ascii_upper c then c + 32 else c]
  else case_map tolower_simple tolower_special c.

End Unicode.

(** ** Exceptions *)

Inductive exn := ValueError | IndexError | KeyError | ZeroDivisionError.

Inductive result (A : Type) :=
  | Ok (a : A)
  | Raise (e : exn).
Arguments Ok {A} a.
Arguments Raise {A} e.

#[global] Instance result_ret : MRet result := fun A a => Ok a.
#[global] Instance result_bind : MBind result := fun A B f m =>
  match m with
  | Ok a => f a
  | Raise e => Raise e
  end.

#[global] Instance exn_eq_dec : EqDecision exn.
Proof. solve_decision. Defined.
#[global] Instance result_eq_dec {A : Type} `{EqDecision A} : EqDecision (result A).
Proof. solve_decision. Defined.

(** [for x in xs: body], threading the variables the body assigns. *)
Fixpoint for_each {A S : Type} (body : S -> A -> result S) (s : S) (xs : list A)
    : result S :=
  match xs with
  | [] => Ok s
  | x :: xs' => s' ← body s x; for_each body s' xs'
  end.

(** ** Strings *)

Fixpoint startswith (s sub : str) : bool :=
  match sub, s with
  | [], _ => true
  | _ :: _, [] => false
  | a :: sub', b :: s' => (a =? b) && startswith s' sub'
  end.

(** [s.find(sub)]: the lowest index at which [sub] occurs in [s]. *)
Fixpoint str_find (s sub : str) : option Z :=
  if startswith s sub then Some 0
  else match s with
       | [] => None
       | _ :: s' => Z.succ <$> str_find s' sub
       end.

(** [sub in s] *)
Definition str_in (sub s : str) : bool := bool_decide (is_Some (str_find s sub)).

(** [s.index(sub)] *)
Definition str_index (s sub : str) : result Z :=
  match str_find s sub with
  | Some i => Ok i
  | None => Raise ValueError
  end.

(** [s[i]] for an integer [i]; a negative index counts from the end. *)
Definition str_getitem (s : str) (i : Z) : result Z :=
  let n := Z.of_nat (length s) in
  let j := if i <? 0 then i + n else i in
  if (j <? 0) || (n <=? j) then Raise IndexError
  else match s !! Z.to_nat j with
       | Some c => Ok c
       | None => Raise IndexError
       end.

(** [text.upper()] *)
Definition str_upper (s : str) : str := flat_map Unicode.upper s.

(** [sep.join(parts)] *)
Fixpoint str_join (sep : str) (parts : list str) : str :=
  match parts with
  | [] => []
  | [p] => p
  | p :: ps => p ++ sep ++ str_join sep ps
  end.

(** [s.split()]: the maximal runs of characters that are not whitespace. *)
Fixpoint split_from (word : str) (s : str) : list str :=
  match s with
  | [] => if word is [] then [] else [word]
  | c :: s' =>
      if Unicode.isspace c then
        if word is [] then split_from [] s' else word :: split_from [] s'
      else split_from (word ++ [c]) s'
  end.

Definition str_split (s : str) : list str := split_from [] s.

(** ** Numbers *)

(** [sum(xs)] for floats: the start value [0] and then each item, added
    from left to right. *)
Definition float_sum (xs : list float) : float := foldl PrimFloat.add 0%float xs.

(** [float(n)] for an integer, rounded to nearest even.  (CPython raises
    [OverflowError] beyond the range of a float, which the length of a
    sequence never reaches.) *)
Definition float_of_int (n : Z) : float := SF2Prim (binary_normalize prec emax n 0 false).

(** [x / y] on floats *)
Definition float_div (x y : float) : result float :=
  if (y =? 0)%float then Raise ZeroDivisionError else Ok (x / y)%float.

(** A number, as the second component of a score holds one: the float
    [chi], or the integer [0] of the neutral score. *)
Inductive number :=
  | Int (n : Z)
  | Float (x : float).

(** The sign of [n - x] for an integer [n] and a float [x], exact as in
    CPython; [None] when [x] is a NaN. *)
Definition compare_int_float (n : Z) (x : float) : option comparison :=
  match Prim2SF x with
  | S754_nan => None
  | S754_infinity s => Some (if s then Gt else Lt)
  | S754_zero _ => Some (n ?= 0)
  | S754_finite s m e =>
      let v := if s then Z.neg m else Z.pos m in
      Some (if 0 <=? e then n ?= v * 2 ^ e else n * 2 ^ (- e) ?= v)
  end.

Definition number_eq (a b : number) : bool :=
  match a, b with
  | Int m, Int n => m =? n
  | Float x, Float y => (x =? y)%float
  | Int n, Float x | Float x, Int n =>
      if compare_int_float n x is Some Eq then true else false
  end.

Definition number_lt (a b : number) : bool :=
  match a, b with
  | Int m, Int n => m <? n
  | Float x, Float y => (x <? y)%float
  | Int n, Float x => if compare_int_float n x is Some Lt then true else false
  | Float x, Int n => if compare_int_float n x is Some Gt then true else false
  end.

(** ** Containers *)

(** [d[k]] *)
Definition dict_getitem (d : list (str * float)) (k : str) : result float :=
  match find (fun e => bool_decide (fst e = k)) d with
  | Some e => Ok (snd e)
  | None => Raise KeyError
  end.

(** [Counter(letters)] and [obs.get(k, d)] *)
Definition Counter (letters : list Z) : gmap Z Z :=
  foldl (fun obs ch => <[ch := default 0 (obs !! ch) + 1]> obs) ∅ letters.

Definition counter_get (obs : gmap Z Z) (k : Z) (d : Z) : Z := default d (obs !! k).

(** [==] and [<] on tuples of two items: the first pair of items that are
    not equal decides. *)
Definition tuple_eq {A B : Type} (eqA : A -> A -> bool) (eqB : B -> B -> bool)
    (x y : A * B) : bool :=
  eqA x.1 y.1 && eqB x.2 y.2.

Definition tuple_lt {A B : Type} (eqA ltA : A -> A -> bool) (eqB ltB : B -> B -> bool)
    (x y : A * B) : bool :=
  if negb (eqA x.1 y.1) then ltA x.1 y.1
  else if negb (eqB x.2 y.2) then ltB x.2 y.2
  else false.

(** [l.sort(key=key)].  The sort of CPython is stable and compares keys
    with [<] only; on the lists sorted here (fewer than 64 items) it is an
    insertion sort: each item goes behind the items of the sorted prefix
    that it is not less than. *)
Fixpoint insort {A K : Type} (lt : K -> K -> bool) (key : A -> K) (x : A)
    (l : list A) : list A :=
  match l with
  | [] => [x]
  | y :: l' => if lt (key x) (key y) then x :: l else y :: insort lt key x l'
  end.

Definition list_sort {A K : Type} (lt : K -> K -> bool) (key : A -> K)
    (l : list A) : list A :=
  foldl (fun sorted x => insort lt key x sorted) [] l.

(** [l[:k]] *)
Definition slice_to {A : Type} (l : list A) (k : Z) : list A :=
  let n := Z.of_nat (length l) in
  let stop := if k <? 0 then Z.max 0 (k + n) else Z.min k n in
  take (Z.to_nat stop) l.

(** [range(n)] *)
Definition range (n : Z) : list Z := seqZ 0 n.

(** ** The program *)

(** [ALPH = string.ascii_uppercase] *)
Definition ALPH : str := py "ABCDEFGHIJKLMNOPQRSTUVWXYZ".

(** Shift letters backward by [shift]; non-letters pass through. *)
Definition caesar_decrypt (text : str) (shift : Z) : result str :=
  out ← for_each (fun (out : list str) (ch : Z) =>
      let up := Unicode.upper ch in
      if str_in up ALPH then
        i ← str_index ALPH up;
        let idx := (i - shift) `mod` 26 in
        dec ← str_getitem ALPH idx;
        mret (out ++ [if Unicode.isupper ch then [dec] else Unicode.lower dec])
      else
        mret (out ++ [[ch]]))
    [] text;
  mret (str_join [] out).

(** The dict [EN_FREQ]: English letter frequencies (percent), in insertion
    order. *)
Definition EN_FREQ : list (str * float) :=
  [ (py "A", 8.167); (py "B", 1.492); (py "C", 2.782); (py "D", 4.253);
    (py "E", 12.702); (py "F", 2.228); (py "G", 2.015); (py "H", 6.094);
    (py "I", 6.966); (py "J", 0.153); (py "K", 0.772); (py "L", 4.025);
    (py "M", 2.406); (py "N", 6.749); (py "O", 7.507); (py "P", 1.929);
    (py "Q", 0.095); (py "R", 5.987); (py "S", 6.327); (py "T", 9.056);
    (py "U", 2.758); (py "V", 0.978); (py "W", 2.360); (py "X", 0.150);
    (py "Y", 1.974); (py "Z", 0.074) ]%float.

Definition EN_TOTAL : float := float_sum (snd <$> EN_FREQ).

Definition COMMON_WORDS : gset str :=
  list_to_set (py <$>
    [ "THE"; "AND"; "OF"; "TO"; "IN"; "IS"; "IT"; "YOU"; "THAT"; "FOR"; "ON";
      "WITH"; "AS"; "ARE"; "AT"; "BE"; "BY"; "THIS"; "I"; "NOT"; "OR"; "FROM";
      "HAVE"; "AN" ]%string).

(** Lower = closer to the English distribution. *)
Definition chi_square_english (text : str) : result float :=
  let letters := filter (fun ch => Is_true (str_in [ch] ALPH)) (str_upper text) in
  let N := Z.of_nat (length letters) in
  if N =? 0 then mret infinity
  else
    let obs := Counter letters in
    for_each (fun (chi : float) (L : Z) =>
        freq ← dict_getitem EN_FREQ [L];
        share ← float_div freq EN_TOTAL;
        let expected := (share * float_of_int N)%float in
        let diff := (float_of_int (counter_get obs L 0) - expected)%float in
        term ← float_div (diff * diff)
                 (if (0 <? expected)%float then expected else 1e-9%float);
        mret (chi + term)%float)
      0%float ALPH.

(** Very light dictionary check using common words. *)
Definition english_word_score (text : str) : Z :=
  let tokens :=
    str_split (str_join []
      ((fun ch => if Unicode.isalpha ch then [ch] else py " ") <$> str_upper text)) in
  foldl Z.add 0
    ((fun tok => if bool_decide (tok ∈ COMMON_WORDS) then 1 else 0) <$> tokens).

(** A score [(-hits, chi)] or [(0, 0)]; a candidate
    [(score, shift, plaintext)]. *)
Definition score : Type := Z * number.
Definition candidate : Type := score * Z * str.

Definition score_eq : score -> score -> bool := tuple_eq Z.eqb number_eq.
Definition score_lt : score -> score -> bool := tuple_lt Z.eqb Z.ltb number_eq number_lt.

(** [<] on the keys [(x[0], x[1])] of the sort. *)
Definition key_lt : score * Z -> score * Z -> bool :=
  tuple_lt score_eq score_lt Z.eqb Z.ltb.

(** Return the [top_k] candidates and all of them, as
    [(score, shift, plaintext)]. *)
Definition brute_force_caesar (ciphertext : str) (use_scoring : bool) (top_k : Z)
    : result (list candidate * list candidate) :=
  candidates ← for_each (fun (candidates : list candidate) (shift : Z) =>
      pt ← caesar_decrypt ciphertext shift;
      score ← (if use_scoring then
                 chi ← chi_square_english pt;
                 let hits := english_word_score pt in
                 mret (- hits, Float chi)
               else mret (0, Int 0));
      mret (candidates ++ [(score, shift, pt)]))
    [] (range 26);
  let candidates := list_sort key_lt (fun x : candidate => (x.1.1, x.1.2)) candidates in
  mret (slice_to candidates top_k, candidates).

(** ** Character tally (activity-04/q1-a.py) *)

Module Tally.

(** A dict from characters to integers: its items, in insertion order. *)
Abbreviation dict := (list (Z * Z)).

(** [k in d] *)
Definition dict_contains (d : dict) (k : Z) : bool := existsb (fun e => e.1 =? k) d.

(** [d[k]] *)
Definition dict_getitem (d : dict) (k : Z) : result Z :=
  match find (fun e => e.1 =? k) d with
  | Some e => Ok e.2
  | None => Raise KeyError
  end.

(** [d[k] = v]: the value of a key of the dict is replaced where the key
    stands; a new key goes to the end. *)
Fixpoint dict_setitem (d : dict) (k v : Z) : dict :=
  match d with
  | [] => [(k, v)]
  | e :: d' => if e.1 =? k then (e.1, v) :: d' else e :: dict_setitem d' k v
  end.

Definition count_freq (txt : str) : result dict :=
  for_each (fun (dct : dict) (ch : Z) =>
      if dict_contains dct ch then
        n ← dict_getitem dct ch;
        mret (dict_setitem dct ch (n + 1))
      else
        mret (dict_setitem dct ch 1))
    [] txt.

(** [sorted(l, key=key, reverse=True)]: CPython reverses the list, sorts it
    (stable, ascending) and reverses the result.  The keys here are
    integers, which [<] orders totally, so that every stable sort returns
    the same list and [list_sort] stands for the sort at every length. *)
Definition sorted_reverse {A K : Type} (lt : K -> K -> bool) (key : A -> K)
    (l : list A) : list A :=
  reverse (list_sort lt key (reverse l)).

(** The order in which the script prints a tally:
    [sorted(frq_dict.items(), key=lambda x: x[1], reverse=True)]. *)
Definition by_count (frq_dict : dict) : list (Z * Z) :=
  sorted_reverse Z.ltb (fun x : Z * Z => x.2) frq_dict.

End Tally.

(** ** Definitions for the statements *)

(** The characters outside ASCII whose uppercase form occurs in [ALPH]:
    dotless i (uppercase "I"), long s (uppercase "S"), and the ligatures
    of long s with t and of s with t (uppercase "ST"). *)
Definition folded : list Z := [0x131; 0x17F; 0xFB05; 0xFB06].

(** What [caesar_decrypt] makes of one character. *)
Definition decrypt_code (shift ch : Z) : Z :=
  match str_find ALPH (Unicode.upper ch) with
  | Some i => (if Unicode.isupper ch then 65 else 97) + (i - shift) `mod` 26
  | None => ch
  end.

(** What the loop of [brute_force_caesar] appends for a shift. *)
Definition scored (ciphertext : str) (use_scoring : bool) (shift : Z) (c : candidate)
    : Prop :=
  c.1.2 = shift ∧ c.2 = decrypt_code shift <$> ciphertext ∧
  if use_scoring then
    ∃ chi, chi_square_english c.2 = Ok chi
           ∧ c.1.1 = (- english_word_score c.2, Float chi)
  else c.1.1 = (0, Int 0).

(** * Properties *)

(** ** The program on examples *)

Example caesar_decrypt_demo :
  caesar_decrypt (py "WKLV LV D FDHVDU FLSKHU.") 3 = Ok (py "THIS IS A CAESAR CIPHER.").
Proof. vm_compute. reflexivity. Qed.

Example caesar_decrypt_mixed :
  caesar_decrypt (py "Khoor, Zruog! 123") 3 = Ok (py "Hello, World! 123").
Proof. vm_compute. reflexivity. Qed.

(** "ß" has the uppercase form "SS", which does not occur in [ALPH]: it
    passes through [caesar_decrypt], and counts as two letters S in
    [chi_square_english]. *)
Example caesar_decrypt_sharp_s : caesar_decrypt [0xDF] 5 = Ok [0xDF].
Proof. vm_compute. reflexivity. Qed.

Example EN_TOTAL_value : EN_TOTAL = 99.999%float.
Proof. vm_compute. reflexivity. Qed.

Example chi_square_english_demo :
  chi_square_english (py "THIS IS A CAESAR CIPHER.") = Ok 20.59176770300092%float.
Proof. vm_compute. reflexivity. Qed.

Example english_word_score_demo :
  english_word_score (py "This is a Caesar cipher.") = 2.
Proof. vm_compute. reflexivity. Qed.

Example english_word_score_apostrophe :
  english_word_score (py "it's not you") = 3.
Proof. vm_compute. reflexivity. Qed.

Example list_sort_stable :
  list_sort Z.ltb fst [(2, 1); (1, 2); (2, 3); (1, 4)] = [(1, 2); (1, 4); (2, 1); (2, 3)].
Proof. reflexivity. Qed.

Example count_freq_example :
  Tally.count_freq (py "abcab") = Ok [(97, 2); (98, 2); (99, 1)].
Proof. reflexivity. Qed.

Example by_count_example :
  Tally.by_count [(97, 1); (98, 3); (99, 1); (100, 3)]
  = [(98, 3); (100, 3); (97, 1); (99, 1)].
Proof. reflexivity. Qed.

Example slice_to_examples :
  slice_to [1; 2; 3] 5 = [1; 2; 3] ∧ slice_to [1; 2; 3] 2 = [1; 2]
  ∧ slice_to [1; 2; 3] 0 = [] ∧ slice_to [1; 2; 3] (-1) = [1; 2]
  ∧ slice_to [1; 2; 3] (-7) = [].
Proof. repeat split. Qed.

(** Decide a closed decidable proposition by evaluation. *)
Ltac by_compute := apply (bool_decide_unpack _); vm_compute; exact I.

(** Split on the integer comparisons of the goal. *)
Ltac zcases :=
  repeat match goal with
    | |- context [?a <=? ?b] => destruct (Z.leb_spec a b)
    | |- context [?a <? ?b] => destruct (Z.ltb_spec a b)
    | |- context [?a =? ?b] => destruct (Z.eqb_spec a b)
    end; try lia; cbn [andb orb negb]; try done.

Lemma bind_Ok {A B : Type} (a : A) (f : A -> result B) : Ok a ≫= f = f a.
Proof. reflexivity. Qed.

(** ** Loops that append one item per iteration *)

Section Loops.
  Context {A B : Type}.
  Implicit Types (body : list B -> A -> result (list B)) (xs : list A).

Lemma for_each_collect_rel (P : A -> B -> Prop) body xs :
    (∀ acc x, x ∈ xs → ∃ y, body acc x = Ok (acc ++ [y]) ∧ P x y) →
    ∀ acc, ∃ ys, for_each body acc xs = Ok (acc ++ ys) ∧ Forall2 P xs ys.
  Proof.
    induction xs as [|x xs IH]; intros Hbody acc.
    - exists []. rewrite app_nil_r. split; [done | constructor].
    - destruct (Hbody acc x) as (y & Hy & HP); [left |].
      destruct (IH (fun acc' x' Hx' => Hbody acc' x' (list_elem_of_further _ _ _ Hx'))
                  (acc ++ [y])) as (ys & Hys & HF).
      exists (y :: ys). simpl. rewrite Hy. simpl. rewrite Hys.
      rewrite <- app_assoc. split; [done | by constructor].
  Qed.

Lemma for_each_collect (f : A -> B) body xs :
    (∀ acc x, x ∈ xs → body acc x = Ok (acc ++ [f x])) →
    ∀ acc, for_each body acc xs = Ok (acc ++ (f <$> xs)).
  Proof.
    intros Hbody acc.
    destruct (for_each_collect_rel (fun x y => y = f x) body xs) with (acc := acc)
      as (ys & -> & HF); [intros; eauto |].
    do 2 f_equal. clear Hbody. induction HF; csimpl; congruence.
  Qed.
End Loops.

Lemma str_join_nil (parts : list str) : str_join [] parts = concat parts.
Proof.
  induction parts as [|p [|q ps] IH]; simpl in *; [done | by rewrite app_nil_r |].
  by rewrite IH.
Qed.

(** ** Searching the alphabet *)

Lemma ALPH_seqZ : ALPH = seqZ 65 26.
Proof. reflexivity. Qed.

Lemma str_find_single (s : str) (x i : Z) :
  str_find s [x] = Some i → 0 ≤ i ∧ s !! Z.to_nat i = Some x.
Proof.
  revert i. induction s as [|a s IH]; intros i; simpl; [done |].
  destruct (Z.eqb_spec x a) as [->|Hne]; simpl.
  - destruct s; intros [= <-]; done.
  - destruct (str_find s [x]) as [j|] eqn:Hj; simpl; [|done].
    intros [= <-]. destruct (IH j eq_refl) as [Hj0 Hl]. split; [lia |].
    by rewrite Z2Nat.inj_succ.
Qed.

Lemma str_find_ALPH_hit (x : Z) : 65 ≤ x ≤ 90 → str_find ALPH [x] = Some (x - 65).
Proof.
  intros Hx.
  assert (Forall (fun x => str_find ALPH [x] = Some (x - 65)) (seqZ 65 26)) as H
    by by_compute.
  rewrite Forall_seqZ in H. apply H. lia.
Qed.

Lemma str_find_ALPH_single (x i : Z) :
  str_find ALPH [x] = Some i → 65 ≤ x ≤ 90 ∧ i = x - 65.
Proof.
  intros H. apply str_find_single in H as [Hi Hl].
  rewrite ALPH_seqZ in Hl. apply lookup_seqZ in Hl. lia.
Qed.

Lemma str_getitem_ALPH (k : Z) : 0 ≤ k < 26 → str_getitem ALPH k = Ok (65 + k).
Proof.
  intros Hk.
  assert (Forall (fun k => str_getitem ALPH k = Ok (65 + k)) (seqZ 0 26)) as H
    by by_compute.
  rewrite Forall_seqZ in H. apply H. lia.
Qed.

(** ** Facts of the character database *)

Lemma lookup_special_Some t c u : Unicode.lookup_special t c = Some u → (c, u) ∈ t.
Proof.
  unfold Unicode.lookup_special.
  destruct (find _ t) as [[c' u']|] eqn:E; simpl; [|done].
  intros [= <-]. apply find_some in E as [Hin Hc]. simpl in Hc.
  apply Z.eqb_eq in Hc as ->. by apply list_elem_of_In.
Qed.

Lemma lookup_simple_Some t c u :
  Unicode.lookup_simple t c = Some u →
  ∃ lo hi k d, (lo, hi, k, d) ∈ t ∧ lo ≤ c ≤ hi ∧ u = c + d.
Proof.
  unfold Unicode.lookup_simple.
  destruct (find _ t) as [[[[lo hi] k] d]|] eqn:E; simpl; [|done].
  intros [= <-]. apply find_some in E as [Hin Hc].
  exists lo, hi, k, d. split; [by apply list_elem_of_In |].
  unfold Unicode.on_stride in Hc. split; [|done].
  apply andb_prop in Hc as [Hc _]. apply andb_prop in Hc as [H1 H2]. lia.
Qed.

Lemma case_map_cases simple special c (P : str -> Prop) :
  (∀ u, (c, u) ∈ special → P u) →
  (∀ lo hi k d, (lo, hi, k, d) ∈ simple → lo ≤ c ≤ hi → P [c + d]) →
  P [c] →
  P (Unicode.case_map simple special c).
Proof.
  intros Hsp Hsi Hid. unfold Unicode.case_map.
  destruct (Unicode.lookup_special special c) as [u|] eqn:E1.
  { apply Hsp. by apply lookup_special_Some. }
  destruct (Unicode.lookup_simple simple c) as [u|] eqn:E2; [|done].
  apply lookup_simple_Some in E2 as (lo & hi & k & d & Hin & Hc & ->). eauto.
Qed.

Lemma toupper_special_ALPH :
  Forall (fun e : Z * str => is_Some (str_find ALPH e.2) → e.1 ∈ folded)
    Unicode.toupper_special.
Proof. by_compute. Qed.

Lemma toupper_simple_ALPH :
  Forall (fun e : Z * Z * Z * Z =>
            90 < e.1.1.1 + e.2 ∨ (e.1.1.1 = e.1.1.2 ∧ e.1.1.1 ∈ folded))
    Unicode.toupper_simple.
Proof. by_compute. Qed.

(** Which characters the transform takes for letters, and at which index. *)
Lemma str_find_upper (ch i : Z) :
  str_find ALPH (Unicode.upper ch) = Some i →
  (65 ≤ ch ≤ 90 ∧ i = ch - 65) ∨ (97 ≤ ch ≤ 122 ∧ i = ch - 97) ∨ ch ∈ folded.
Proof.
  unfold Unicode.upper, Unicode.ascii_lower.
  destruct (Z.ltb_spec ch 128) as [Hlt|Hge].
  - destruct ((97 <=? ch) && (ch <=? 122)) eqn:E; intros H;
      apply str_find_ALPH_single in H; [right; left | left]; lia.
  - intros H. right; right. revert H.
    apply case_map_cases with (P := fun u => str_find ALPH u = Some i → ch ∈ folded).
    + intros u Hin H.
      pose proof toupper_special_ALPH as HT. rewrite Forall_forall in HT.
      apply (HT _ Hin). change (is_Some (str_find ALPH u)). by rewrite H.
    + intros lo hi k d Hin Hc H. apply str_find_ALPH_single in H.
      pose proof toupper_simple_ALPH as HT. rewrite Forall_forall in HT.
      destruct (HT _ Hin) as [HT'|[HT1 HT2]]; simpl in *; [lia |].
      by replace ch with lo by lia.
    + intros H. apply str_find_ALPH_single in H. lia.
Qed.

Lemma folded_case (ch : Z) :
  ch ∈ folded →
  Unicode.isalpha ch = true ∧ Unicode.isupper ch = false ∧ Unicode.islower ch = true.
Proof.
  intros H.
  assert (Forall (fun ch => Unicode.isalpha ch = true ∧ Unicode.isupper ch = false
                            ∧ Unicode.islower ch = true) folded) as HF by by_compute.
  rewrite Forall_forall in HF. by apply HF.
Qed.

(** ** The shift transform, character by character *)

Lemma caesar_decrypt_eq (text : str) (shift : Z) :
  caesar_decrypt text shift = Ok (decrypt_code shift <$> text).
Proof.
  unfold caesar_decrypt.
  rewrite (for_each_collect (fun ch => [decrypt_code shift ch])).
  - simpl. f_equal. rewrite str_join_nil.
    induction text as [|ch text IH]; csimpl; congruence.
  - intros acc ch _. unfold decrypt_code, str_in, str_index.
    destruct (str_find ALPH (Unicode.upper ch)) as [i|] eqn:E.
    + rewrite bool_decide_eq_true_2 by eauto. simpl.
      assert (0 ≤ (i - shift) `mod` 26 < 26) as Hk by (apply Z.mod_pos_bound; lia).
      rewrite str_getitem_ALPH by done. simpl.
      destruct (Unicode.isupper ch); [done |].
      unfold Unicode.lower, Unicode.ascii_upper. do 3 f_equal.
      generalize dependent ((i - shift) `mod` 26). intros k Hk. zcases.
      f_equal. lia.
    + rewrite bool_decide_eq_false_2; [done |]. by intros [? ?].
Qed.

Lemma ascii_upper_props (c : Z) :
  65 ≤ c ≤ 90 →
  Unicode.isalpha c = true ∧ Unicode.isupper c = true ∧ Unicode.islower c = false
  ∧ Unicode.upper c = [c].
Proof.
  intros Hc.
  unfold Unicode.isalpha, Unicode.isupper, Unicode.islower, Unicode.upper,
    Unicode.ascii_upper, Unicode.ascii_lower.
  repeat split; zcases.
Qed.

Lemma ascii_lower_props (c : Z) :
  97 ≤ c ≤ 122 →
  Unicode.isalpha c = true ∧ Unicode.isupper c = false ∧ Unicode.islower c = true
  ∧ Unicode.upper c = [c - 32].
Proof.
  intros Hc.
  unfold Unicode.isalpha, Unicode.isupper, Unicode.islower, Unicode.upper,
    Unicode.ascii_upper, Unicode.ascii_lower.
  repeat split; zcases.
Qed.

(** A character that is not alphabetic is not taken for a letter. *)
Lemma str_find_upper_nonalpha (ch : Z) :
  Unicode.isalpha ch = false → str_find ALPH (Unicode.upper ch) = None.
Proof.
  intros Hna. destruct (str_find ALPH (Unicode.upper ch)) as [i|] eqn:E; [|done].
  apply str_find_upper in E as [[Hc _]|[[Hc _]|Hc]].
  - apply ascii_upper_props in Hc as (Ha & _). congruence.
  - apply ascii_lower_props in Hc as (Ha & _). congruence.
  - apply folded_case in Hc as (Ha & _). congruence.
Qed.

Lemma decrypt_code_nonalpha (s ch : Z) :
  Unicode.isalpha ch = false → decrypt_code s ch = ch.
Proof.
  intros Hna. unfold decrypt_code. by rewrite str_find_upper_nonalpha.
Qed.

(** The transform keeps the class and the case of every character. *)
Lemma decrypt_code_case (s ch : Z) :
  Unicode.isalpha (decrypt_code s ch) = Unicode.isalpha ch
  ∧ Unicode.isupper (decrypt_code s ch) = Unicode.isupper ch
  ∧ Unicode.islower (decrypt_code s ch) = Unicode.islower ch.
Proof.
  unfold decrypt_code.
  destruct (str_find ALPH (Unicode.upper ch)) as [i|] eqn:E; [|done].
  assert (0 ≤ (i - s) `mod` 26 < 26) as Hk by (apply Z.mod_pos_bound; lia).
  revert Hk. generalize ((i - s) `mod` 26). intros k Hk.
  apply str_find_upper in E as [[Hc _]|[[Hc _]|Hc]].
  - apply ascii_upper_props in Hc as (-> & -> & -> & _).
    destruct (ascii_upper_props (65 + k)) as (-> & -> & -> & _); [lia | done].
  - apply ascii_lower_props in Hc as (-> & -> & -> & _).
    destruct (ascii_lower_props (97 + k)) as (-> & -> & -> & _); [lia | done].
  - apply folded_case in Hc as (-> & -> & ->).
    destruct (ascii_lower_props (97 + k)) as (-> & -> & -> & _); [lia | done].
Qed.

(** Shifting back by [s] and then by [26 - s] restores a character, unless
    the transform folded it into ASCII. *)
Lemma decrypt_code_round_trip (s ch : Z) :
  ch ∉ folded → 0 ≤ s < 26 → decrypt_code (26 - s) (decrypt_code s ch) = ch.
Proof.
  intros Hnf Hs. unfold decrypt_code at 2.
  destruct (str_find ALPH (Unicode.upper ch)) as [i|] eqn:E.
  - assert (0 ≤ (i - s) `mod` 26 < 26) as Hk by (apply Z.mod_pos_bound; lia).
    apply str_find_upper in E as [[Hc ->]|[[Hc ->]|Hc]]; [| |done].
    + destruct (ascii_upper_props ch Hc) as (_ & -> & _).
      unfold decrypt_code.
      destruct (ascii_upper_props (65 + (ch - 65 - s) `mod` 26)) as (_ & -> & _ & ->);
        [lia |].
      rewrite str_find_ALPH_hit by lia.
      revert Hk. Z.to_euclidean_division_equations. lia.
    + destruct (ascii_lower_props ch Hc) as (_ & -> & _).
      unfold decrypt_code.
      destruct (ascii_lower_props (97 + (ch - 97 - s) `mod` 26)) as (_ & -> & _ & ->);
        [lia |].
      rewrite str_find_ALPH_hit by lia.
      revert Hk. Z.to_euclidean_division_equations. lia.
  - unfold decrypt_code. by rewrite E.
Qed.

Lemma decrypt_code_zero (ch : Z) : ch ∉ folded → decrypt_code 0 ch = ch.
Proof.
  intros Hnf. unfold decrypt_code.
  destruct (str_find ALPH (Unicode.upper ch)) as [i|] eqn:E; [|done].
  apply str_find_upper in E as [[Hc ->]|[[Hc ->]|Hc]]; [| |done].
  - destruct (ascii_upper_props ch Hc) as (_ & -> & _).
    rewrite Z.sub_0_r, Z.mod_small by lia. lia.
  - destruct (ascii_lower_props ch Hc) as (_ & -> & _).
    rewrite Z.sub_0_r, Z.mod_small by lia. lia.
Qed.

Lemma decrypt_code_mod (s ch : Z) : decrypt_code (s `mod` 26) ch = decrypt_code s ch.
Proof.
  unfold decrypt_code. destruct (str_find ALPH (Unicode.upper ch)); [|done].
  by rewrite Zminus_mod_idemp_r.
Qed.

(** ** The shift transform: theorems *)

(** C10: for every text T and every shift s in [0, 26), [caesar_decrypt]
    returns a text with exactly as many characters as T. *)
Theorem caesar_decrypt_length (T : str) (s : Z) :
  0 ≤ s < 26 →
  ∃ out, caesar_decrypt T s = Ok out ∧ length out = length T.
Proof.
  intros _. exists (decrypt_code s <$> T).
  split; [apply caesar_decrypt_eq | apply length_fmap].
Qed.

Lemma caesar_decrypt_length_witness :
  0 ≤ 3 < 26 ∧
  ∃ out, caesar_decrypt (py "WKLV LV D FDHVDU FLSKHU.") 3 = Ok out
         ∧ length out = length (py "WKLV LV D FDHVDU FLSKHU.").
Proof. split; [lia | apply caesar_decrypt_length; lia]. Defined.

(** C8: for every text T and every shift s in [0, 26), the transform
    leaves every non-alphabetic character of T unchanged at its position,
    and maps every alphabetic character to an alphabetic character of the
    same case (upper or lower). *)
Theorem caesar_decrypt_pointwise (T : str) (s : Z) :
  0 ≤ s < 26 →
  ∃ out, caesar_decrypt T s = Ok out ∧ length out = length T ∧
    ∀ (i : nat) (ch : Z), T !! i = Some ch →
      ∃ ch', out !! i = Some ch'
        ∧ (Unicode.isalpha ch = false → ch' = ch)
        ∧ (Unicode.isalpha ch = true →
             Unicode.isalpha ch' = true
             ∧ Unicode.isupper ch' = Unicode.isupper ch
             ∧ Unicode.islower ch' = Unicode.islower ch).
Proof.
  intros _. exists (decrypt_code s <$> T).
  split; [apply caesar_decrypt_eq |]. split; [apply length_fmap |].
  intros i ch Hi. exists (decrypt_code s ch).
  split; [by rewrite list_lookup_fmap, Hi |].
  split; [apply decrypt_code_nonalpha |].
  intros Ha. destruct (decrypt_code_case s ch) as (-> & -> & ->). done.
Qed.

Lemma caesar_decrypt_pointwise_witness :
  0 ≤ 3 < 26 ∧
  ∃ out, caesar_decrypt (py "Wklv, 2 [Fdhvdu]!") 3 = Ok out
    ∧ length out = length (py "Wklv, 2 [Fdhvdu]!") ∧
    ∀ (i : nat) (ch : Z), py "Wklv, 2 [Fdhvdu]!" !! i = Some ch →
      ∃ ch', out !! i = Some ch'
        ∧ (Unicode.isalpha ch = false → ch' = ch)
        ∧ (Unicode.isalpha ch = true →
             Unicode.isalpha ch' = true
             ∧ Unicode.isupper ch' = Unicode.isupper ch
             ∧ Unicode.islower ch' = Unicode.islower ch).
Proof. split; [lia | apply caesar_decrypt_pointwise; lia]. Defined.

(** C2, as the code has it: for every text T that contains none of the
    four characters U+0131, U+017F, U+FB05 and U+FB06, shifting back by s
    and then by 26 - s returns T, for every s with 0 < s < 26, and shifting
    back by 0 returns T. *)
Theorem caesar_decrypt_round_trip (T : str) :
  Forall (fun ch => ch ∉ folded) T →
  (∀ s, 0 < s < 26 →
     caesar_decrypt T s ≫= (fun d => caesar_decrypt d (26 - s)) = Ok T)
  ∧ caesar_decrypt T 0 = Ok T.
Proof.
  intros HT.
  assert (∀ s, 0 ≤ s < 26 → decrypt_code (26 - s) <$> (decrypt_code s <$> T) = T) as Hrt.
  { intros s Hs. rewrite <- list_fmap_compose.
    induction HT as [|ch T Hch HT IH]; csimpl; [done |].
    by rewrite decrypt_code_round_trip, IH. }
  split.
  - intros s Hs. rewrite caesar_decrypt_eq. simpl.
    rewrite caesar_decrypt_eq. f_equal. apply Hrt. lia.
  - rewrite caesar_decrypt_eq. f_equal. clear Hrt.
    induction HT as [|ch T Hch HT IH]; csimpl; [done |].
    by rewrite decrypt_code_zero, IH.
Qed.

Lemma caesar_decrypt_round_trip_witness :
  Forall (fun ch => ch ∉ folded) (py "Wklv, 2!") ∧
  ((∀ s, 0 < s < 26 →
      caesar_decrypt (py "Wklv, 2!") s ≫= (fun d => caesar_decrypt d (26 - s))
      = Ok (py "Wklv, 2!"))
   ∧ caesar_decrypt (py "Wklv, 2!") 0 = Ok (py "Wklv, 2!")).
Proof.
  assert (Forall (fun ch => ch ∉ folded) (py "Wklv, 2!")) as H
    by (apply (bool_decide_unpack _); vm_compute; exact I).
  split; [exact H | exact (caesar_decrypt_round_trip _ H)].
Defined.

(** C2, as stated, fails: the dotless i (U+0131) has the uppercase form
    "I", so that the transform shifts it as it shifts "i"; already the
    shift 0 turns it into "i". *)
Lemma caesar_decrypt_round_trip_fails :
  caesar_decrypt [0x131] 0 = Ok (py "i")
  ∧ caesar_decrypt [0x131] 3 ≫= (fun d => caesar_decrypt d (26 - 3)) = Ok (py "i")
  ∧ Ok (py "i") ≠ Ok [0x131].
Proof. repeat split; [vm_compute; reflexivity .. | discriminate]. Qed.

(** C4, as the code has it: for every text and every integer shift outside
    [0, 26), [caesar_decrypt] raises nothing and returns what it returns for
    the shift reduced modulo 26. *)
Theorem caesar_decrypt_wraps (T : str) (s : Z) :
  s < 0 ∨ 26 ≤ s →
  ∃ out, caesar_decrypt T s = Ok out ∧ caesar_decrypt T (s `mod` 26) = Ok out.
Proof.
  intros _. exists (decrypt_code s <$> T). rewrite !caesar_decrypt_eq.
  split; [done |]. f_equal. apply list_fmap_ext. intros _ ch _. apply decrypt_code_mod.
Qed.

Lemma caesar_decrypt_wraps_witness :
  (27 < 0 ∨ 26 ≤ 27) ∧
  ∃ out, caesar_decrypt (py "Az") 27 = Ok out
         ∧ caesar_decrypt (py "Az") (27 `mod` 26) = Ok out.
Proof. split; [lia | apply caesar_decrypt_wraps; lia]. Defined.

(** C4, as stated, fails: the shifts 27 and -1 are accepted and act as the
    shifts 1 and 25. *)
Lemma caesar_decrypt_accepts_any_shift :
  caesar_decrypt (py "Az") 27 = Ok (py "Zy")
  ∧ caesar_decrypt (py "Az") 1 = Ok (py "Zy")
  ∧ caesar_decrypt (py "Az") (-1) = Ok (py "Ba").
Proof. repeat split; vm_compute; reflexivity. Qed.

(** ** The frequency analyzer *)

Lemma for_each_ok {A S : Type} (body : S -> A -> result S) (xs : list A) :
  (∀ s x, x ∈ xs → ∃ s', body s x = Ok s') →
  ∀ s, ∃ s', for_each body s xs = Ok s'.
Proof.
  induction xs as [|x xs IH]; intros Hbody s; simpl; [eauto |].
  destruct (Hbody s x) as [s' ->]; [left |]. simpl.
  apply IH. intros s0 x0 Hx0. apply Hbody. by right.
Qed.

Lemma dict_getitem_EN_FREQ (L : Z) :
  L ∈ ALPH → ∃ freq, dict_getitem EN_FREQ [L] = Ok freq.
Proof.
  intros HL.
  assert (Forall (fun L => ∃ e, find (fun e => bool_decide (e.1 = [L])) EN_FREQ = Some e)
            ALPH) as HF.
  { repeat (constructor; [eexists; vm_compute; reflexivity |]). constructor. }
  rewrite Forall_forall in HF. destruct (HF L HL) as [e He].
  unfold dict_getitem. rewrite He. eauto.
Qed.

Lemma EN_TOTAL_nonzero : (EN_TOTAL =? 0)%float = false.
Proof. vm_compute. reflexivity. Qed.

(** The divisor of a term of the statistic is never zero. *)
Lemma guarded_divisor_nonzero (expected : float) :
  ((if (0 <? expected)%float then expected else 1e-9%float) =? 0)%float = false.
Proof.
  destruct (0 <? expected)%float eqn:E; [| vm_compute; reflexivity].
  rewrite FloatAxioms.ltb_spec in E. rewrite FloatAxioms.eqb_spec.
  change (Prim2SF 0) with (S754_zero false) in *.
  destruct (Prim2SF expected) as [s|s| |s m e]; try done; by destruct s.
Qed.

(** The statistic is defined for every text. *)
Lemma chi_square_english_total (text : str) : ∃ chi, chi_square_english text = Ok chi.
Proof.
  unfold chi_square_english.
  match goal with |- context [Z.of_nat ?n =? 0] => destruct (Z.of_nat n =? 0) end;
    [by eexists |].
  apply for_each_ok. intros chi L HL.
  destruct (dict_getitem_EN_FREQ L HL) as [freq ->]. rewrite bind_Ok.
  unfold float_div. rewrite EN_TOTAL_nonzero, bind_Ok.
  rewrite guarded_divisor_nonzero, bind_Ok. by eexists.
Qed.

Lemma toupper_special_nonalpha :
  Forall (fun e : Z * str =>
            Unicode.isalpha e.1 = true ∨ Forall (fun u => ¬ 65 ≤ u ≤ 90) e.2)
    Unicode.toupper_special.
Proof. by_compute. Qed.

(** The uppercase form of a character that is not alphabetic has no
    letter of [ALPH]. *)
Lemma upper_nonalpha (ch u : Z) :
  Unicode.isalpha ch = false → u ∈ Unicode.upper ch → ¬ 65 ≤ u ≤ 90.
Proof.
  intros Hna Hu Hr. revert Hu. unfold Unicode.upper.
  destruct (Z.ltb_spec ch 128) as [Hlt|Hge].
  - intros ->%list_elem_of_singleton.
    destruct (Unicode.ascii_lower ch) eqn:E.
    + destruct (ascii_lower_props ch) as (Ha & _); [lia | congruence].
    + destruct (ascii_upper_props ch) as (Ha & _); [lia | congruence].
  - apply case_map_cases with (P := fun us => u ∈ us → False).
    + intros us Hin Hu.
      pose proof toupper_special_nonalpha as HT. rewrite Forall_forall in HT.
      destruct (HT _ Hin) as [Ha|HF]; simpl in *; [congruence |].
      rewrite Forall_forall in HF. by apply (HF u).
    + intros lo hi k d Hin Hc ->%list_elem_of_singleton.
      pose proof toupper_simple_ALPH as HT. rewrite Forall_forall in HT.
      destruct (HT _ Hin) as [HT'|[HT1 HT2]]; simpl in *; [lia |].
      replace lo with ch in HT2 by lia.
      apply folded_case in HT2 as (Ha & _). congruence.
    + intros ->%list_elem_of_singleton. lia.
Qed.

Lemma str_upper_nonalpha (text : str) (u : Z) :
  Forall (fun ch => Unicode.isalpha ch = false) text →
  u ∈ str_upper text → ¬ 65 ≤ u ≤ 90.
Proof.
  intros HT Hu. unfold str_upper in Hu.
  apply list_elem_of_In, in_flat_map in Hu as (ch & Hch & Hu).
  rewrite Forall_forall in HT.
  apply (upper_nonalpha ch); [apply HT | ]; by apply list_elem_of_In.
Qed.

Lemma chi_square_english_nonalpha (text : str) :
  Forall (fun ch => Unicode.isalpha ch = false) text →
  chi_square_english text = Ok infinity.
Proof.
  intros HT. unfold chi_square_english.
  replace (filter _ (str_upper text)) with (@nil Z); [done |].
  symmetry. apply elem_of_nil_inv. intros u [Hin Hu]%list_elem_of_filter.
  apply (str_upper_nonalpha text u HT Hu).
  unfold str_in in Hin. apply Is_true_true, bool_decide_eq_true in Hin as [i Hi].
  by apply str_find_ALPH_single in Hi as [? _].
Qed.

(** C6: [chi_square_english] returns positive infinity for the empty
    string, and for every text without an alphabetic character. *)
Theorem chi_square_english_no_letters (text : str) :
  Forall (fun ch => Unicode.isalpha ch = false) text →
  chi_square_english [] = Ok infinity ∧ chi_square_english text = Ok infinity.
Proof.
  intros HT. split; [reflexivity | by apply chi_square_english_nonalpha].
Qed.

Lemma chi_square_english_no_letters_witness :
  Forall (fun ch => Unicode.isalpha ch = false) (py "12345!!!") ∧
  chi_square_english [] = Ok infinity ∧
  chi_square_english (py "12345!!!") = Ok infinity.
Proof.
  assert (Forall (fun ch => Unicode.isalpha ch = false) (py "12345!!!")) as H
    by (apply (bool_decide_unpack _); vm_compute; exact I).
  split; [exact H | exact (chi_square_english_no_letters _ H)].
Defined.

(** ** The lexical scorer *)

Lemma split_from_elem (s word tok : str) (c : Z) :
  tok ∈ split_from word s → c ∈ tok → c ∈ word ++ s.
Proof.
  revert word. induction s as [|a s IH]; intros word Htok Hc; simpl in Htok.
  - destruct word; [by apply elem_of_nil in Htok |].
    apply list_elem_of_singleton in Htok as ->. by rewrite app_nil_r.
  - destruct (Unicode.isspace a).
    + destruct word as [|b word].
      * apply list_elem_of_further. by apply (IH []).
      * apply elem_of_cons in Htok as [->|Htok]; [by apply elem_of_app; left |].
        apply elem_of_app. right. apply list_elem_of_further. by apply (IH []).
    + specialize (IH _ Htok Hc). by rewrite <- app_assoc in IH.
Qed.

Lemma COMMON_WORDS_ascii (tok : str) :
  tok ∈ COMMON_WORDS → ∃ c, c ∈ tok ∧ 65 ≤ c ≤ 90.
Proof.
  unfold COMMON_WORDS. rewrite elem_of_list_to_set. intros Htok.
  match type of Htok with _ ∈ ?ws =>
    assert (Forall (Exists (fun c => 65 ≤ c ≤ 90)) ws) as HF by by_compute
  end.
  rewrite Forall_forall in HF. apply HF, Exists_exists in Htok. done.
Qed.

Lemma no_hits (tokens : list str) :
  Forall (fun tok => tok ∉ COMMON_WORDS) tokens →
  foldl Z.add 0
    ((fun tok => if bool_decide (tok ∈ COMMON_WORDS) then 1 else 0) <$> tokens) = 0.
Proof.
  induction 1 as [|tok tokens Htok _ IH]; csimpl; [done |].
  by rewrite bool_decide_eq_false_2.
Qed.

Lemma english_word_score_nonalpha (text : str) :
  Forall (fun ch => Unicode.isalpha ch = false) text →
  english_word_score text = 0.
Proof.
  intros HT. unfold english_word_score. apply no_hits.
  rewrite Forall_forall. intros tok Htok Hw.
  apply COMMON_WORDS_ascii in Hw as (c & Hc & Hr).
  apply (split_from_elem _ [] tok c) in Htok; [|done]. simpl in Htok.
  rewrite str_join_nil in Htok.
  apply list_elem_of_In, in_concat in Htok as (part & Hpart & Hin).
  apply list_elem_of_In, list_elem_of_fmap in Hpart as (u & -> & Hu).
  apply (str_upper_nonalpha text u HT Hu).
  destruct (Unicode.isalpha u); apply list_elem_of_In, list_elem_of_singleton in Hin;
    [by subst | vm_compute in Hin; lia].
Qed.

(** ** The ranking engine *)

Section Sorting.
Context {A K : Type} (lt : K -> K -> bool) (key : A -> K).

Lemma insort_perm (x : A) (l : list A) : insort lt key x l ≡ₚ x :: l.
Proof.
  induction l as [|y l IH]; simpl; [done |].
  destruct (lt (key x) (key y)); [done |].
  rewrite IH. apply Permutation_swap.
Qed.

Lemma list_sort_perm (l : list A) : list_sort lt key l ≡ₚ l.
Proof.
  unfold list_sort. rewrite <- (app_nil_l l) at 2. generalize (@nil A) as sorted.
  induction l as [|x l IH]; intros sorted; simpl; [by rewrite app_nil_r |].
  rewrite IH, insort_perm. apply Permutation_middle.
Qed.

Lemma insort_last (x : A) (l : list A) :
  Forall (fun y => lt (key x) (key y) = false) l → insort lt key x l = l ++ [x].
Proof. induction 1 as [|y l Hy _ IH]; simpl; [done |]. by rewrite Hy, IH. Qed.

(** Sorting leaves alone a list no item of which is less than an earlier
    one. *)
Lemma list_sort_sorted (l : list A) :
  StronglySorted (fun a b => lt b a = false) (key <$> l) → list_sort lt key l = l.
Proof.
  unfold list_sort. rewrite <- (app_nil_l l) at 1 3. generalize (@nil A) as sorted.
  induction l as [|x l IH]; intros sorted Hs; simpl; [by rewrite app_nil_r |].
  rewrite insort_last.
  - rewrite IH; rewrite <- app_assoc; done.
  - rewrite fmap_app, fmap_cons in Hs. rewrite Forall_forall. intros y Hy.
    apply (StronglySorted_app_1_elem_of _ _ _ (key y) (key x) Hs).
    + by apply list_elem_of_fmap_2.
    + left.
Qed.
End Sorting.

Lemma slice_to_positive {A : Type} (l : list A) (k : Z) :
  0 < k → slice_to l k = take (Z.to_nat (Z.min k (Z.of_nat (length l)))) l.
Proof. intros Hk. unfold slice_to. by destruct (Z.ltb_spec k 0); [lia |]. Qed.

Lemma slice_to_nonpositive {A : Type} (l : list A) (k : Z) :
  k ≤ 0 →
  slice_to l k = if k =? 0 then [] else take (Z.to_nat (Z.of_nat (length l) + k)) l.
Proof.
  intros Hk. unfold slice_to.
  destruct (Z.ltb_spec k 0), (Z.eqb_spec k 0); try lia.
  - f_equal. lia.
  - subst. by rewrite Z.min_l by lia.
Qed.

Lemma brute_force_caesar_eq (ciphertext : str) (use_scoring : bool) (top_k : Z) :
  ∃ candidates,
    Forall2 (scored ciphertext use_scoring) (seqZ 0 26) candidates ∧
    brute_force_caesar ciphertext use_scoring top_k =
      let ranked :=
        list_sort key_lt (fun x : candidate => (x.1.1, x.1.2)) candidates in
      Ok (slice_to ranked top_k, ranked).
Proof.
  unfold brute_force_caesar, range.
  match goal with |- context [for_each ?body [] _] =>
    destruct (for_each_collect_rel (scored ciphertext use_scoring) body (seqZ 0 26))
      with (acc := @nil candidate) as (cs & Hcs & HF);
      [| exists cs; split; [exact HF | by rewrite Hcs]]
  end.
  intros acc shift _. rewrite caesar_decrypt_eq, bind_Ok.
  destruct use_scoring.
  - destruct (chi_square_english_total (decrypt_code shift <$> ciphertext)) as [chi Hchi].
    rewrite Hchi. eexists. split; [reflexivity |].
    split; [done |]. split; [done |]. by exists chi.
  - eexists. split; [reflexivity | done].
Qed.

Lemma scored_shifts (ciphertext : str) (use_scoring : bool) (cs : list candidate) :
  Forall2 (scored ciphertext use_scoring) (seqZ 0 26) cs →
  (fun c : candidate => c.1.2) <$> cs = seqZ 0 26.
Proof.
  generalize (seqZ 0 26) as shifts. intros shifts HF.
  induction HF as [|s c ss cs (Hs & _) _ IH]; csimpl; congruence.
Qed.

Lemma scored_ranked (ciphertext : str) (use_scoring : bool) (cs : list candidate) :
  Forall2 (scored ciphertext use_scoring) (seqZ 0 26) cs →
  let ranked := list_sort key_lt (fun x : candidate => (x.1.1, x.1.2)) cs in
  length ranked = 26%nat ∧ (fun c : candidate => c.1.2) <$> ranked ≡ₚ seqZ 0 26.
Proof.
  intros HF ranked. subst ranked. split.
  - rewrite list_sort_perm. by rewrite <- (Forall2_length _ _ _ HF).
  - rewrite list_sort_perm. by rewrite (scored_shifts _ _ _ HF).
Qed.

(** C3: for every ciphertext, every [use_scoring] and every positive
    [top_k], [brute_force_caesar] returns a ranked list of exactly 26
    candidates whose shifts are a permutation of 0..25, and a top list that
    is the prefix of the ranked list of length min(top_k, 26); for
    [top_k = 30] the top list has 26 entries and is the ranked list. *)
Theorem brute_force_caesar_ranks_all (ciphertext : str) (use_scoring : bool) (top_k : Z) :
  0 < top_k →
  ∃ top ranked,
    brute_force_caesar ciphertext use_scoring top_k = Ok (top, ranked)
    ∧ length ranked = 26%nat
    ∧ (fun c : candidate => c.1.2) <$> ranked ≡ₚ seqZ 0 26
    ∧ top = take (Z.to_nat (Z.min top_k 26)) ranked
    ∧ (top_k = 30 → length top = 26%nat ∧ top = ranked).
Proof.
  intros Hk.
  destruct (brute_force_caesar_eq ciphertext use_scoring top_k) as (cs & HF & ->).
  destruct (scored_ranked _ _ _ HF) as [Hlen Hperm]. cbv zeta.
  eexists _, _. split; [reflexivity |]. split; [done |]. split; [done |].
  rewrite slice_to_positive, Hlen by done. split; [done |].
  intros ->. rewrite firstn_all2 by (rewrite Hlen; simpl; lia). done.
Qed.

Lemma brute_force_caesar_ranks_all_witness :
  0 < 30 ∧
  ∃ top ranked,
    brute_force_caesar (py "WKLV LV D FDHVDU FLSKHU.") true 30 = Ok (top, ranked)
    ∧ length ranked = 26%nat
    ∧ (fun c : candidate => c.1.2) <$> ranked ≡ₚ seqZ 0 26
    ∧ top = take (Z.to_nat (Z.min 30 26)) ranked
    ∧ (30 = 30 → length top = 26%nat ∧ top = ranked).
Proof. split; [lia | apply brute_force_caesar_ranks_all; lia]. Defined.

(** C5, as the code has it: for every ciphertext and every non-positive
    [top_k], [brute_force_caesar] raises nothing; it returns the ranked list
    of all 26 candidates, and as top list the slice [ranked[:top_k]]: the
    empty list for [top_k = 0], and the ranked list without its last
    [-top_k] entries for a negative [top_k]. *)
Theorem brute_force_caesar_nonpositive_top_k
    (ciphertext : str) (use_scoring : bool) (top_k : Z) :
  top_k ≤ 0 →
  ∃ top ranked,
    brute_force_caesar ciphertext use_scoring top_k = Ok (top, ranked)
    ∧ length ranked = 26%nat
    ∧ (fun c : candidate => c.1.2) <$> ranked ≡ₚ seqZ 0 26
    ∧ top = if top_k =? 0 then [] else take (Z.to_nat (26 + top_k)) ranked.
Proof.
  intros Hk.
  destruct (brute_force_caesar_eq ciphertext use_scoring top_k) as (cs & HF & ->).
  destruct (scored_ranked _ _ _ HF) as [Hlen Hperm]. cbv zeta.
  eexists _, _. split; [reflexivity |]. split; [done |]. split; [done |].
  by rewrite slice_to_nonpositive, Hlen.
Qed.

Lemma brute_force_caesar_nonpositive_top_k_witness :
  -20 ≤ 0 ∧
  ∃ top ranked,
    brute_force_caesar (py "12345!!!") true (-20) = Ok (top, ranked)
    ∧ length ranked = 26%nat
    ∧ (fun c : candidate => c.1.2) <$> ranked ≡ₚ seqZ 0 26
    ∧ top = if -20 =? 0 then [] else take (Z.to_nat (26 + -20)) ranked.
Proof. split; [lia | apply brute_force_caesar_nonpositive_top_k; lia]. Defined.

(** C5, as stated, fails: with [top_k = 0] and with [top_k = -20] the call
    returns, with all 26 candidates ranked and a top list of 0 and of 6
    entries. *)
Lemma brute_force_caesar_accepts_any_top_k :
  (∃ ranked, brute_force_caesar (py "12345!!!") true 0 = Ok ([], ranked)
             ∧ length ranked = 26%nat)
  ∧ (∃ top ranked, brute_force_caesar (py "12345!!!") true (-20) = Ok (top, ranked)
                   ∧ length ranked = 26%nat ∧ length top = 6%nat).
Proof.
  split.
  - eexists. split; [vm_compute; reflexivity | reflexivity].
  - eexists _, _. split; [vm_compute; reflexivity | split; reflexivity].
Qed.

(** From a description of each candidate to the list of candidates. *)
Lemma Forall2_fmap_eq {A B : Type} (P : A -> B -> Prop) (f : A -> B) xs ys :
  (∀ x y, P x y → y = f x) → Forall2 P xs ys → ys = f <$> xs.
Proof. intros HP HF. induction HF; csimpl; [done |]. f_equal; auto. Qed.

(** Candidates that share one score and come by ascending shift are
    ranked already. *)
Lemma list_sort_same_score (sc : score) (pt : Z -> str) :
  score_eq sc sc = true →
  let cs : list candidate := (fun shift => (sc, shift, pt shift)) <$> seqZ 0 26 in
  list_sort key_lt (fun x : candidate => (x.1.1, x.1.2)) cs = cs.
Proof.
  intros Heq cs. apply list_sort_sorted. subst cs.
  rewrite <- list_fmap_compose.
  apply (StronglySorted_fmap _ Z.lt); [| by_compute].
  intros a b Hab. unfold key_lt, tuple_lt. simpl. rewrite Heq. simpl.
  destruct (Z.eqb_spec b a); simpl; [done | lia].
Qed.

(** C9: for every ciphertext, [brute_force_caesar] without scoring returns
    a ranked list whose shifts are 0, 1, ..., 25 in this order, every
    candidate with the same neutral score [(0, 0)]. *)
Theorem brute_force_caesar_unscored (ciphertext : str) (top_k : Z) :
  ∃ top ranked,
    brute_force_caesar ciphertext false top_k = Ok (top, ranked)
    ∧ (fun c : candidate => c.1.2) <$> ranked = seqZ 0 26
    ∧ Forall (fun c : candidate => c.1.1 = (0, Int 0)) ranked.
Proof.
  destruct (brute_force_caesar_eq ciphertext false top_k) as (cs & HF & ->).
  apply (Forall2_fmap_eq _
           (fun shift => ((0, Int 0), shift, decrypt_code shift <$> ciphertext)))
    in HF.
  2: { intros shift [[sc s] pt] (Hs & Hpt & Hsc). simpl in *. by subst. }
  subst cs. cbv zeta.
  pose proof (list_sort_same_score (0, Int 0)
                (fun shift => decrypt_code shift <$> ciphertext) eq_refl) as Hsorted.
  match goal with |- context [list_sort ?lt ?key ?cs] =>
    replace (list_sort lt key cs) with cs by (symmetry; exact Hsorted)
  end.
  eexists _, _. split; [reflexivity |]. split.
  - rewrite <- list_fmap_compose. apply list_fmap_id.
  - rewrite Forall_fmap. by apply Forall_true.
Qed.

(** C7: for every ciphertext without an alphabetic character,
    [brute_force_caesar] with scoring gives each of the 26 candidates the
    chi-square value positive infinity and the hit count 0, ranks them by
    ascending shift, and so ranks the shift 0 first. *)
Theorem brute_force_caesar_no_letters (ciphertext : str) (top_k : Z) :
  Forall (fun ch => Unicode.isalpha ch = false) ciphertext →
  ∃ top ranked,
    brute_force_caesar ciphertext true top_k = Ok (top, ranked)
    ∧ length ranked = 26%nat
    ∧ Forall (fun c : candidate =>
                chi_square_english c.2 = Ok infinity
                ∧ english_word_score c.2 = 0
                ∧ c.1.1 = (0, Float infinity)) ranked
    ∧ (fun c : candidate => c.1.2) <$> ranked = seqZ 0 26
    ∧ head ranked = Some ((0, Float infinity), 0, ciphertext).
Proof.
  intros HT.
  destruct (brute_force_caesar_eq ciphertext true top_k) as (cs & HF & ->).
  assert (∀ shift, decrypt_code shift <$> ciphertext = ciphertext) as Hpt.
  { intros shift. rewrite <- (list_fmap_id ciphertext) at 2.
    apply Forall_fmap_ext. eapply Forall_impl; [exact HT |].
    intros ch Hch. by apply decrypt_code_nonalpha. }
  apply (Forall2_fmap_eq _ (fun shift => ((0, Float infinity), shift, ciphertext)))
    in HF.
  2: { intros shift [[sc s] pt] (Hs & Hp & chi & Hchi & Hsc). simpl in *.
       rewrite Hpt in Hp. subst pt.
       rewrite chi_square_english_nonalpha in Hchi by done.
       rewrite english_word_score_nonalpha in Hsc by done.
       injection Hchi as <-. by subst. }
  subst cs. cbv zeta.
  pose proof (list_sort_same_score (0, Float infinity) (fun _ => ciphertext) eq_refl)
    as Hsorted.
  match goal with |- context [list_sort ?lt ?key ?cs] =>
    replace (list_sort lt key cs) with cs by (symmetry; exact Hsorted)
  end.
  eexists _, _. split; [reflexivity |]. split; [by rewrite length_fmap |].
  split; [| split].
  - rewrite Forall_fmap. apply Forall_true. intros shift. simpl.
    by rewrite chi_square_english_nonalpha, english_word_score_nonalpha.
  - rewrite <- list_fmap_compose. apply list_fmap_id.
  - reflexivity.
Qed.

Lemma brute_force_caesar_no_letters_witness :
  Forall (fun ch => Unicode.isalpha ch = false) (py "12345!!!") ∧
  ∃ top ranked,
    brute_force_caesar (py "12345!!!") true 5 = Ok (top, ranked)
    ∧ length ranked = 26%nat
    ∧ Forall (fun c : candidate =>
                chi_square_english c.2 = Ok infinity
                ∧ english_word_score c.2 = 0
                ∧ c.1.1 = (0, Float infinity)) ranked
    ∧ (fun c : candidate => c.1.2) <$> ranked = seqZ 0 26
    ∧ head ranked = Some ((0, Float infinity), 0, py "12345!!!").
Proof.
  assert (Forall (fun ch => Unicode.isalpha ch = false) (py "12345!!!")) as H
    by (apply (bool_decide_unpack _); vm_compute; exact I).
  split; [exact H | exact (brute_force_caesar_no_letters _ 5 H)].
Defined.

(** The ranked list does not depend on [top_k]. *)
Lemma brute_force_caesar_top_k (ciphertext : str) (use_scoring : bool) (k k' : Z)
    (top ranked : list candidate) :
  brute_force_caesar ciphertext use_scoring k = Ok (top, ranked) →
  brute_force_caesar ciphertext use_scoring k' = Ok (slice_to ranked k', ranked).
Proof.
  unfold brute_force_caesar.
  destruct (for_each _ _ _) as [cs|e]; [| done].
  rewrite !bind_Ok. by intros [= _ <-].
Qed.

Lemma head_slice_to {A : Type} (l : list A) (k : Z) :
  0 < k → head (slice_to l k) = head l.
Proof.
  intros Hk. rewrite slice_to_positive by done.
  destruct l as [|x l]; [by rewrite take_nil |]. simpl length.
  destruct (Z.to_nat _) eqn:E; [lia | done].
Qed.

(** C1: for the ciphertext "WKLV LV D FDHVDU FLSKHU.", [brute_force_caesar]
    with scoring ranks first the shift 3 with the plaintext
    "THIS IS A CAESAR CIPHER.", in the ranked list and, for a positive
    [top_k], in the top list. *)
Theorem brute_force_caesar_demo (top_k : Z) :
  ∃ top ranked score,
    brute_force_caesar (py "WKLV LV D FDHVDU FLSKHU.") true top_k = Ok (top, ranked)
    ∧ head ranked = Some (score, 3, py "THIS IS A CAESAR CIPHER.")
    ∧ (0 < top_k → head top = Some (score, 3, py "THIS IS A CAESAR CIPHER.")).
Proof.
  let r := eval vm_compute in (brute_force_caesar (py "WKLV LV D FDHVDU FLSKHU.") true 5)
  in assert (brute_force_caesar (py "WKLV LV D FDHVDU FLSKHU.") true 5 = r) as H
       by (vm_compute; reflexivity).
  apply (brute_force_caesar_top_k _ _ _ top_k) in H.
  eexists _, _, _. split; [exact H |]. split; [reflexivity |].
  intros Hk. by rewrite head_slice_to.
Qed.

(** * Further properties *)

(** ** The shift transform: composition and inverse *)

Lemma decrypt_code_ascii_upper (s k : Z) :
  0 ≤ k < 26 → decrypt_code s (65 + k) = 65 + (k - s) `mod` 26.
Proof.
  intros Hk. unfold decrypt_code.
  destruct (ascii_upper_props (65 + k)) as (_ & -> & _ & ->); [lia |].
  rewrite str_find_ALPH_hit by lia. do 2 f_equal. lia.
Qed.

Lemma decrypt_code_ascii_lower (s k : Z) :
  0 ≤ k < 26 → decrypt_code s (97 + k) = 97 + (k - s) `mod` 26.
Proof.
  intros Hk. unfold decrypt_code.
  destruct (ascii_lower_props (97 + k)) as (_ & -> & _ & ->); [lia |].
  rewrite str_find_ALPH_hit by lia. do 2 f_equal. lia.
Qed.

Lemma decrypt_code_compose (s1 s2 ch : Z) :
  decrypt_code s2 (decrypt_code s1 ch) = decrypt_code (s1 + s2) ch.
Proof.
  unfold decrypt_code at 2 3.
  destruct (str_find ALPH (Unicode.upper ch)) as [i|] eqn:E.
  - assert (0 ≤ (i - s1) `mod` 26 < 26) as Hk by (apply Z.mod_pos_bound; lia).
    assert (((i - s1) `mod` 26 - s2) `mod` 26 = (i - (s1 + s2)) `mod` 26) as Hm.
    { rewrite Zminus_mod_idemp_l. f_equal. lia. }
    destruct (Unicode.isupper ch).
    + by rewrite decrypt_code_ascii_upper, Hm.
    + by rewrite decrypt_code_ascii_lower, Hm.
  - unfold decrypt_code. by rewrite E.
Qed.

(** X1: shifting back by s1 and then by s2 is shifting back by s1 + s2, for
    every text and all integers s1 and s2. *)
Theorem caesar_decrypt_compose (T : str) (s1 s2 : Z) :
  caesar_decrypt T s1 ≫= (fun d => caesar_decrypt d s2) = caesar_decrypt T (s1 + s2).
Proof.
  rewrite !caesar_decrypt_eq, bind_Ok, caesar_decrypt_eq. f_equal.
  rewrite <- list_fmap_compose. apply list_fmap_ext. intros _ ch _.
  apply decrypt_code_compose.
Qed.

(** X2: on a text without the four folded characters, shifting back by s
    and shifting back by -s undo each other, for every integer s. *)
Theorem caesar_decrypt_inverse (T : str) (s : Z) :
  Forall (fun ch => ch ∉ folded) T →
  caesar_decrypt T s ≫= (fun d => caesar_decrypt d (- s)) = Ok T
  ∧ caesar_decrypt T (- s) ≫= (fun d => caesar_decrypt d s) = Ok T.
Proof.
  intros HT.
  assert (caesar_decrypt T 0 = Ok T) as H0.
  { rewrite caesar_decrypt_eq. f_equal.
    induction HT as [|ch T Hch HT IH]; csimpl; [done |].
    by rewrite decrypt_code_zero, IH. }
  split.
  - rewrite !caesar_decrypt_eq, bind_Ok, caesar_decrypt_eq, <- H0, caesar_decrypt_eq.
    f_equal. rewrite <- list_fmap_compose. apply list_fmap_ext. intros _ ch _.
    simpl. rewrite decrypt_code_compose. f_equal. lia.
  - rewrite !caesar_decrypt_eq, bind_Ok, caesar_decrypt_eq, <- H0, caesar_decrypt_eq.
    f_equal. rewrite <- list_fmap_compose. apply list_fmap_ext. intros _ ch _.
    simpl. rewrite decrypt_code_compose. f_equal. lia.
Qed.

Lemma caesar_decrypt_inverse_witness :
  Forall (fun ch => ch ∉ folded) (py "Wklv, 2!") ∧
  caesar_decrypt (py "Wklv, 2!") 29 ≫= (fun d => caesar_decrypt d (- 29))
    = Ok (py "Wklv, 2!")
  ∧ caesar_decrypt (py "Wklv, 2!") (- 29) ≫= (fun d => caesar_decrypt d 29)
    = Ok (py "Wklv, 2!").
Proof.
  assert (Forall (fun ch => ch ∉ folded) (py "Wklv, 2!")) as H
    by (apply (bool_decide_unpack _); vm_compute; exact I).
  split; [exact H | exact (caesar_decrypt_inverse _ 29 H)].
Defined.

(** X3: the transform works character by character: the result for a
    concatenation is the concatenation of the results. *)
Theorem caesar_decrypt_app (T1 T2 : str) (s : Z) :
  caesar_decrypt (T1 ++ T2) s =
    d1 ← caesar_decrypt T1 s; d2 ← caesar_decrypt T2 s; mret (d1 ++ d2).
Proof. rewrite !caesar_decrypt_eq, !bind_Ok. by rewrite fmap_app. Qed.

(** ** The frequency analyzer: what the statistic depends on *)

Lemma for_each_ext {A S : Type} (body1 body2 : S -> A -> result S) (xs : list A) :
  (∀ s x, body1 s x = body2 s x) → ∀ s, for_each body1 s xs = for_each body2 s xs.
Proof.
  intros Hb. induction xs as [|x xs IH]; intros s; simpl; [done |].
  rewrite Hb. destruct (body2 s x); simpl; [apply IH | done].
Qed.

(** A counter holds the number of occurrences of each item. *)
Lemma Counter_get (letters : list Z) (k : Z) :
  counter_get (Counter letters) k 0
  = Z.of_nat (length (filter (fun x => x = k) letters)).
Proof.
  unfold counter_get, Counter.
  assert (∀ obs : gmap Z Z,
    default 0 (foldl (fun obs ch => <[ch := default 0 (obs !! ch) + 1]> obs) obs letters
               !! k)
    = default 0 (obs !! k) + Z.of_nat (length (filter (fun x => x = k) letters))) as H.
  { induction letters as [|x letters IH]; intros obs; simpl; [lia |].
    rewrite IH, filter_cons. rewrite lookup_insert.
    destruct (decide (x = k)) as [->|Hne]; simpl; lia. }
  rewrite H, lookup_empty. simpl. lia.
Qed.

(** The statistic is a function of the letters of the text, up to their
    order. *)
Lemma chi_square_english_letters (T1 T2 : str) :
  filter (fun ch => Is_true (str_in [ch] ALPH)) (str_upper T1)
    ≡ₚ filter (fun ch => Is_true (str_in [ch] ALPH)) (str_upper T2) →
  chi_square_english T1 = chi_square_english T2.
Proof.
  intros HP. unfold chi_square_english. cbv zeta.
  rewrite (Permutation_length HP).
  destruct (Z.of_nat _ =? 0); [done |].
  apply for_each_ext. intros chi L.
  match goal with |- context [counter_get (Counter ?l1) L 0 ] =>
    match goal with |- _ = ?rhs =>
      match rhs with context [counter_get (Counter ?l2) L 0 ] =>
        assert (counter_get (Counter l1) L 0 = counter_get (Counter l2) L 0) as Hc
          by (rewrite (Counter_get l1), (Counter_get l2); by rewrite HP)
      end
    end
  end.
  by rewrite Hc.
Qed.

(** X4: [chi_square_english] raises nothing: for every text, every letter
    of [ALPH] is a key of [EN_FREQ] and no divisor is zero. *)
Theorem chi_square_english_never_raises (text : str) :
  ∃ chi, chi_square_english text = Ok chi.
Proof. apply chi_square_english_total. Qed.

(** X5: the statistic does not depend on the order of the characters of
    the text. *)
Theorem chi_square_english_permutation (T1 T2 : str) :
  T1 ≡ₚ T2 → chi_square_english T1 = chi_square_english T2.
Proof.
  intros HP. apply chi_square_english_letters. unfold str_upper. by rewrite HP.
Qed.

Lemma chi_square_english_permutation_witness :
  py "LISTEN" ≡ₚ py "SILENT" ∧
  chi_square_english (py "LISTEN") = chi_square_english (py "SILENT").
Proof.
  assert (py "LISTEN" ≡ₚ py "SILENT") as H
    by (apply (bool_decide_unpack _); vm_compute; exact I).
  split; [exact H | exact (chi_square_english_permutation _ _ H)].
Defined.

(** X6: the statistic ignores every character that is not alphabetic: it is
    the statistic of the text without these characters. *)
Theorem chi_square_english_ignores_nonalpha (text : str) :
  chi_square_english (filter (fun ch => Is_true (Unicode.isalpha ch)) text)
  = chi_square_english text.
Proof.
  apply chi_square_english_letters.
  induction text as [|ch text IH]; [done |].
  rewrite filter_cons. unfold str_upper in *. simpl flat_map at 2.
  rewrite filter_app. destruct (decide (Is_true (Unicode.isalpha ch))) as [Ha|Hna].
  - simpl flat_map. by rewrite filter_app, IH.
  - rewrite IH.
    replace (filter _ (Unicode.upper ch)) with (@nil Z); [done |].
    symmetry. apply elem_of_nil_inv. intros u [Hin Hu]%list_elem_of_filter.
    apply (upper_nonalpha ch u); [by destruct (Unicode.isalpha ch) | done |].
    unfold str_in in Hin. apply Is_true_true, bool_decide_eq_true in Hin as [i Hi].
    by apply str_find_ALPH_single in Hi as [? _].
Qed.

(** ** Uppercasing twice *)

(** The code points an entry of a table of simple mappings lists. *)
Definition stride_points (e : Z * Z * Z * Z) : list Z :=
  (fun i => e.1.1.1 + e.1.2 * i) <$> seqZ 0 ((e.1.1.2 - e.1.1.1) `div` e.1.2 + 1).

Lemma on_stride_points (lo hi k d c : Z) :
  0 < k → Unicode.on_stride lo hi k c = true → c ∈ stride_points (lo, hi, k, d).
Proof.
  intros Hk Hc. unfold Unicode.on_stride in Hc.
  apply andb_prop in Hc as [Hc Hm]. apply andb_prop in Hc as [H1 H2].
  apply Z.eqb_eq in Hm. unfold stride_points. simpl.
  apply list_elem_of_fmap. exists ((c - lo) `div` k). split.
  - pose proof (Z.div_mod (c - lo) k). lia.
  - apply elem_of_seqZ. split; [apply Z.div_pos; lia |].
    assert ((c - lo) `div` k ≤ (hi - lo) `div` k) by (apply Z.div_le_mono; lia). lia.
Qed.

Lemma lookup_simple_stride t c u :
  Unicode.lookup_simple t c = Some u →
  ∃ lo hi k d, (lo, hi, k, d) ∈ t ∧ Unicode.on_stride lo hi k c = true ∧ u = c + d.
Proof.
  unfold Unicode.lookup_simple.
  destruct (find _ t) as [[[[lo hi] k] d]|] eqn:E; simpl; [|done].
  intros [= <-]. apply find_some in E as [Hin Hc].
  exists lo, hi, k, d. split; [by apply list_elem_of_In | done].
Qed.

Lemma toupper_special_fixed :
  Forall (fun e : Z * str => flat_map Unicode.upper e.2 = e.2) Unicode.toupper_special.
Proof. by_compute. Qed.

Lemma toupper_simple_fixed :
  Forall (fun e : Z * Z * Z * Z =>
            0 < e.1.2
            ∧ Forall (fun c => Unicode.upper (c + e.2) = [c + e.2]) (stride_points e))
    Unicode.toupper_simple.
Proof. by_compute. Qed.

(** The uppercase form of a character is its own uppercase form. *)
Lemma upper_idempotent (c : Z) :
  flat_map Unicode.upper (Unicode.upper c) = Unicode.upper c.
Proof.
  assert (∀ u, Unicode.upper u = [u] → flat_map Unicode.upper [u] = [u]) as Hfix.
  { intros u Hu. simpl. by rewrite Hu. }
  destruct (Z.ltb_spec c 128) as [Hlt|Hge].
  - assert (∃ u, Unicode.upper c = [u] ∧ Unicode.upper u = [u]) as (u & -> & Hu);
      [| by apply Hfix].
    unfold Unicode.upper, Unicode.ascii_lower.
    destruct (Z.ltb_spec c 128); [| lia].
    destruct ((97 <=? c) && (c <=? 122)) eqn:E; eexists; (split; [reflexivity |]).
    + apply andb_prop in E as [H1 H2]. zcases.
    + rewrite E. by destruct (Z.ltb_spec c 128); [| lia].
  - assert (Unicode.upper c =
            Unicode.case_map Unicode.toupper_simple Unicode.toupper_special c) as Hup.
    { unfold Unicode.upper. by destruct (Z.ltb_spec c 128); [lia |]. }
    rewrite Hup. unfold Unicode.case_map in *.
    destruct (Unicode.lookup_special Unicode.toupper_special c) as [u|] eqn:E1.
    { apply lookup_special_Some in E1.
      pose proof toupper_special_fixed as HT. rewrite Forall_forall in HT.
      apply (HT _ E1). }
    destruct (Unicode.lookup_simple Unicode.toupper_simple c) as [u|] eqn:E2;
      [| by apply Hfix].
    apply lookup_simple_stride in E2 as (lo & hi & k & d & Hin & Hc & ->).
    pose proof toupper_simple_fixed as HT. rewrite Forall_forall in HT.
    destruct (HT _ Hin) as [Hk HF]. simpl in Hk. rewrite Forall_forall in HF.
    apply Hfix, (HF c). by apply on_stride_points.
Qed.

Lemma str_upper_idempotent (text : str) : str_upper (str_upper text) = str_upper text.
Proof.
  unfold str_upper. induction text as [|ch text IH]; simpl; [done |].
  by rewrite flat_map_app, upper_idempotent, IH.
Qed.

(** X7: both scorers are case-insensitive in that uppercasing the text
    first changes neither the statistic nor the number of hits. *)
Theorem scorers_ignore_uppercasing (text : str) :
  chi_square_english (str_upper text) = chi_square_english text
  ∧ english_word_score (str_upper text) = english_word_score text.
Proof.
  unfold chi_square_english, english_word_score.
  by rewrite str_upper_idempotent.
Qed.

(** ** The lexical scorer: separators *)

Lemma split_from_space (s1 s2 word : str) :
  split_from word (s1 ++ 32 :: s2) = split_from word s1 ++ split_from [] s2.
Proof.
  revert word. induction s1 as [|c s1 IH]; intros word; simpl.
  - change (Unicode.isspace 32) with true. by destruct word.
  - destruct (Unicode.isspace c); [| apply IH].
    destruct word; by rewrite IH.
Qed.

Lemma split_from_spaces (n : nat) (s : str) :
  split_from [] (replicate n 32 ++ s) = split_from [] s.
Proof.
  induction n as [|n IH]; simpl; [done |].
  change (Unicode.isspace 32) with true. apply IH.
Qed.

Lemma foldl_add_app (xs ys : list Z) :
  foldl Z.add 0 (xs ++ ys) = foldl Z.add 0 xs + foldl Z.add 0 ys.
Proof.
  rewrite foldl_app. generalize (foldl Z.add 0 xs) as a.
  induction ys as [|y ys IH]; intros a; simpl; [lia |].
  rewrite IH, (IH (0 + y)). lia.
Qed.

Lemma upper_nonempty (c : Z) : Unicode.upper c ≠ [].
Proof.
  unfold Unicode.upper. destruct (c <? 128); [done |].
  apply case_map_cases with (P := fun u => u ≠ []); [| done ..].
  intros u Hin.
  assert (Forall (fun e : Z * str => e.2 ≠ []) Unicode.toupper_special) as HT
    by by_compute.
  rewrite Forall_forall in HT. apply (HT _ Hin).
Qed.

(** X8: a character whose uppercase form has no alphabetic character (a
    digit, a blank, an apostrophe, a hyphen, ...) separates tokens wherever
    it stands: the hits of [T1 + p + T2] are the hits of [T1] plus the hits
    of [T2]. *)
Theorem english_word_score_separator (T1 T2 : str) (p : Z) :
  Forall (fun u => Unicode.isalpha u = false) (Unicode.upper p) →
  english_word_score (T1 ++ p :: T2) = english_word_score T1 + english_word_score T2.
Proof.
  intros Hp. unfold english_word_score, str_split.
  set (blank := fun ch : Z => if Unicode.isalpha ch then [ch] else py " ").
  rewrite !str_join_nil. unfold str_upper.
  rewrite flat_map_app. simpl flat_map.
  rewrite !fmap_app, !concat_app.
  assert (∃ n, concat (blank <$> Unicode.upper p) = 32 :: replicate n 32) as [n ->].
  { pose proof (upper_nonempty p) as Hne.
    induction Hp as [|u us Hu Hus IH]; [done |].
    csimpl. unfold blank at 1. rewrite Hu.
    destruct us as [|u' us]; [by exists 0%nat |].
    destruct IH as [n ->]; [done |]. by exists (S n). }
  rewrite <- app_comm_cons, split_from_space, split_from_spaces.
  by rewrite fmap_app, foldl_add_app.
Qed.

Lemma english_word_score_separator_witness :
  Forall (fun u => Unicode.isalpha u = false) (Unicode.upper 39) ∧
  english_word_score (py "it" ++ 39 :: py "s not")
  = english_word_score (py "it") + english_word_score (py "s not").
Proof.
  assert (Forall (fun u => Unicode.isalpha u = false) (Unicode.upper 39)) as H
    by (apply (bool_decide_unpack _); vm_compute; exact I).
  split; [exact H | exact (english_word_score_separator _ _ 39 H)].
Defined.

(** ** The ranking engine: what the ranked list holds *)

Section Ranked.
Context {A K : Type} (lt : K -> K -> bool) (key : A -> K) (rank : A -> Z).
Hypothesis lt_rank : ∀ x y, lt (key x) (key y) = true → rank x ≤ rank y.
Hypothesis not_lt_rank : ∀ x y, lt (key x) (key y) = false → rank y ≤ rank x.

Lemma insort_ranked (x : A) (l : list A) :
  StronglySorted (fun a b => rank a ≤ rank b) l →
  StronglySorted (fun a b => rank a ≤ rank b) (insort lt key x l).
Proof.
  induction 1 as [|y l Hl IH Hy]; simpl; [repeat constructor |].
  destruct (lt (key x) (key y)) eqn:E.
  - constructor; [by constructor |]. constructor; [by apply lt_rank |].
    eapply Forall_impl; [exact Hy |]. intros z Hz. simpl in Hz.
    apply lt_rank in E. lia.
  - constructor; [done |]. rewrite insort_perm. constructor; [by apply not_lt_rank | done].
Qed.

Lemma list_sort_ranked (l : list A) :
  StronglySorted (fun a b => rank a ≤ rank b) (list_sort lt key l).
Proof.
  unfold list_sort.
  assert (StronglySorted (fun a b => rank a ≤ rank b) (@nil A)) as Hnil by constructor.
  revert Hnil. generalize (@nil A) as sorted.
  induction l as [|x l IH]; intros sorted Hs; simpl; [done |].
  by apply IH, insort_ranked.
Qed.
End Ranked.

Lemma key_lt_hits (x y : candidate) :
  key_lt (x.1.1, x.1.2) (y.1.1, y.1.2) = true → x.1.1.1 ≤ y.1.1.1.
Proof.
  destruct x as [[[hx cx] sx] px], y as [[[hy cy] sy] py0].
  unfold key_lt, tuple_lt, score_eq, score_lt, tuple_eq, tuple_lt. simpl.
  destruct (Z.eqb_spec hx hy); simpl; [lia |]. intros ?%Z.ltb_lt. lia.
Qed.

Lemma key_not_lt_hits (x y : candidate) :
  key_lt (x.1.1, x.1.2) (y.1.1, y.1.2) = false → y.1.1.1 ≤ x.1.1.1.
Proof.
  destruct x as [[[hx cx] sx] px], y as [[[hy cy] sy] py0].
  unfold key_lt, tuple_lt, score_eq, score_lt, tuple_eq, tuple_lt. simpl.
  destruct (Z.eqb_spec hx hy); simpl; [lia |]. intros ?%Z.ltb_ge. lia.
Qed.

(** X9: every candidate of the ranked list is consistent: its plaintext is
    the ciphertext shifted back by its shift and, with scoring, its score is
    the pair of the negated hit count and the statistic of this plaintext;
    without scoring it is [(0, 0)]. *)
Theorem brute_force_caesar_candidates
    (ciphertext : str) (use_scoring : bool) (top_k : Z) :
  ∃ top ranked,
    brute_force_caesar ciphertext use_scoring top_k = Ok (top, ranked)
    ∧ Forall (fun c : candidate =>
                caesar_decrypt ciphertext c.1.2 = Ok c.2
                ∧ if use_scoring then
                    ∃ chi, chi_square_english c.2 = Ok chi
                           ∧ c.1.1 = (- english_word_score c.2, Float chi)
                  else c.1.1 = (0, Int 0)) ranked.
Proof.
  destruct (brute_force_caesar_eq ciphertext use_scoring top_k) as (cs & HF & ->).
  cbv zeta. eexists _, _. split; [reflexivity |].
  rewrite list_sort_perm. clear top_k.
  induction HF as [|shift c shifts cs (Hs & Hpt & Hsc) _ IH]; constructor; [| done].
  split; [| done]. by rewrite caesar_decrypt_eq, Hs, Hpt.
Qed.

(** X10: with scoring, the ranked list is in order of hits: no candidate
    has more hits than a candidate ranked before it. *)
Theorem brute_force_caesar_hits_descend (ciphertext : str) (top_k : Z) :
  ∃ top ranked,
    brute_force_caesar ciphertext true top_k = Ok (top, ranked)
    ∧ StronglySorted
        (fun a b : candidate => english_word_score b.2 ≤ english_word_score a.2)
        ranked.
Proof.
  destruct (brute_force_caesar_eq ciphertext true top_k) as (cs & HF & ->).
  cbv zeta. eexists _, _. split; [reflexivity |].
  assert (Forall (fun c : candidate => c.1.1.1 = - english_word_score c.2)
            (list_sort key_lt (fun x : candidate => (x.1.1, x.1.2)) cs)) as Hhits.
  { rewrite list_sort_perm. clear top_k.
    induction HF as [|shift c shifts cs (_ & _ & chi & _ & Hsc) _ IH];
      constructor; [by rewrite Hsc | done]. }
  pose proof (list_sort_ranked key_lt (fun x : candidate => (x.1.1, x.1.2))
                (fun x : candidate => x.1.1.1) key_lt_hits key_not_lt_hits cs) as Hs.
  revert Hhits Hs. generalize (list_sort key_lt (fun x : candidate => (x.1.1, x.1.2)) cs).
  intros ranked Hhits Hs.
  induction Hs as [|c ranked Hr IH Hc]; [constructor |].
  apply Forall_cons in Hhits as [Hh Hhits]. constructor; [by apply IH |].
  rewrite Forall_forall in *. intros c' Hc'. specialize (Hc _ Hc'). simpl in Hc.
  rewrite Hh, (Hhits _ Hc') in Hc. lia.
Qed.

(** X11: exhaustive search finds the text: when the ciphertext is a text
    without the folded characters shifted back by s, the text itself is the
    candidate of the shift -s mod 26. *)
Theorem brute_force_caesar_complete
    (T : str) (s : Z) (use_scoring : bool) (top_k : Z) :
  Forall (fun ch => ch ∉ folded) T →
  ∃ ciphertext top ranked c,
    caesar_decrypt T s = Ok ciphertext
    ∧ brute_force_caesar ciphertext use_scoring top_k = Ok (top, ranked)
    ∧ c ∈ ranked ∧ c.1.2 = (- s) `mod` 26 ∧ c.2 = T.
Proof.
  intros HT. exists (decrypt_code s <$> T).
  destruct (brute_force_caesar_eq (decrypt_code s <$> T) use_scoring top_k)
    as (cs & HF & ->).
  cbv zeta.
  assert (0 ≤ (- s) `mod` 26 < 26) as Hj by (apply Z.mod_pos_bound; lia).
  destruct (Forall2_lookup_l _ _ _ (Z.to_nat ((- s) `mod` 26)) ((- s) `mod` 26) HF)
    as (c & Hc & Hshift & Hpt & _).
  { apply lookup_seqZ. lia. }
  eexists _, _, c. split; [apply caesar_decrypt_eq |]. split; [reflexivity |].
  split; [| split; [done |]].
  - rewrite list_sort_perm. by eapply list_elem_of_lookup_2.
  - rewrite Hpt, <- list_fmap_compose.
    clear -HT. induction HT as [|ch T Hch HT IH]; csimpl; [done |].
    rewrite IH. f_equal. rewrite decrypt_code_compose, <- decrypt_code_mod.
    replace ((s + (- s) `mod` 26) `mod` 26) with 0.
    + by apply decrypt_code_zero.
    + rewrite Zplus_mod_idemp_r. by replace (s + - s) with 0 by lia.
Qed.

Lemma brute_force_caesar_complete_witness :
  Forall (fun ch => ch ∉ folded) (py "This is a Caesar cipher.") ∧
  ∃ ciphertext top ranked c,
    caesar_decrypt (py "This is a Caesar cipher.") 23 = Ok ciphertext
    ∧ brute_force_caesar ciphertext true 5 = Ok (top, ranked)
    ∧ c ∈ ranked ∧ c.1.2 = (- 23) `mod` 26 ∧ c.2 = py "This is a Caesar cipher.".
Proof.
  assert (Forall (fun ch => ch ∉ folded) (py "This is a Caesar cipher.")) as H
    by (apply (bool_decide_unpack _); vm_compute; exact I).
  split; [exact H | exact (brute_force_caesar_complete _ 23 true 5 H)].
Defined.

(** X12: the view of all shifts that [main] prints,
    [sorted(all_candidates, key=lambda x: x[1])], holds the candidates of
    the ranked list in the order of the shifts 0, 1, ..., 25. *)
Theorem ranked_sorted_by_shift (ciphertext : str) (use_scoring : bool) (top_k : Z) :
  ∃ top ranked,
    brute_force_caesar ciphertext use_scoring top_k = Ok (top, ranked)
    ∧ list_sort Z.ltb (fun x : candidate => x.1.2) ranked ≡ₚ ranked
    ∧ (fun c : candidate => c.1.2) <$> list_sort Z.ltb (fun x : candidate => x.1.2) ranked
      = seqZ 0 26.
Proof.
  destruct (brute_force_caesar_eq ciphertext use_scoring top_k) as (cs & HF & ->).
  destruct (scored_ranked _ _ _ HF) as [_ Hperm]. cbv zeta in *.
  eexists _, _. split; [reflexivity |]. split; [apply list_sort_perm |].
  revert Hperm. generalize (list_sort key_lt (fun x : candidate => (x.1.1, x.1.2)) cs).
  intros ranked Hperm.
  apply (StronglySorted_unique Z.le).
  - apply (StronglySorted_fmap _ (fun a b : candidate => a.1.2 ≤ b.1.2)); [done |].
    apply (list_sort_ranked Z.ltb (fun x : candidate => x.1.2)
             (fun x : candidate => x.1.2)).
    + intros x y ?%Z.ltb_lt. lia.
    + intros x y ?%Z.ltb_ge. lia.
  - by_compute.
  - by rewrite list_sort_perm.
Qed.

(** ** The character tally *)

(** The count a dict holds for a key, 0 for a key it does not have. *)
Definition tally (d : list (Z * Z)) (k : Z) : Z :=
  match find (fun e => e.1 =? k) d with
  | Some e => e.2
  | None => 0
  end.

Lemma dict_contains_keys (d : list (Z * Z)) (k : Z) :
  Tally.dict_contains d k = true ↔ k ∈ d.*1.
Proof.
  unfold Tally.dict_contains. induction d as [|e d IH]; csimpl.
  - split; [done | by intros ?%elem_of_nil].
  - rewrite orb_true_iff, IH, elem_of_cons, Z.eqb_eq. split; intros [?|?]; auto.
Qed.

Lemma dict_getitem_tally (d : list (Z * Z)) (k : Z) :
  Tally.dict_getitem d k = if decide (k ∈ d.*1) then Ok (tally d k) else Raise KeyError.
Proof.
  unfold Tally.dict_getitem, tally. induction d as [|e d IH]; csimpl.
  - first [done | case_decide as H; [by apply elem_of_nil in H | done]].
  - destruct (Z.eqb_spec e.1 k) as [->|Hne].
    + rewrite decide_True; [done | left].
    + rewrite IH. destruct (decide (k ∈ d.*1)) as [Hin|Hnin].
      * rewrite decide_True; [done | by right].
      * rewrite decide_False; [done |]. by intros [?|?]%elem_of_cons.
Qed.

Lemma tally_absent (d : list (Z * Z)) (k : Z) : k ∉ d.*1 → tally d k = 0.
Proof.
  unfold tally. induction d as [|e d IH]; simpl; [done |].
  rewrite not_elem_of_cons. intros [Hne Hnin].
  destruct (Z.eqb_spec e.1 k); [congruence | by apply IH].
Qed.

Lemma tally_setitem (d : list (Z * Z)) (k v k' : Z) :
  tally (Tally.dict_setitem d k v) k' = if decide (k = k') then v else tally d k'.
Proof.
  unfold tally. induction d as [|[a b] d IH]; simpl.
  - destruct (Z.eqb_spec k k'), (decide (k = k')); done.
  - destruct (Z.eqb_spec a k) as [->|Hne]; simpl.
    + destruct (Z.eqb_spec k k'), (decide (k = k')); done.
    + destruct (Z.eqb_spec a k') as [->|Hne']; [by rewrite decide_False | done].
Qed.

Lemma keys_setitem (d : list (Z * Z)) (k v : Z) :
  (Tally.dict_setitem d k v).*1 = d.*1 ++ if decide (k ∈ d.*1) then [] else [k].
Proof.
  induction d as [|e d IH]; csimpl.
  - first [done | case_decide as H; [by apply elem_of_nil in H | done]].
  - destruct (Z.eqb_spec e.1 k) as [->|Hne]; csimpl.
    + rewrite decide_True; [by rewrite app_nil_r | left].
    + rewrite IH. f_equal. destruct (decide (k ∈ d.*1)) as [Hin|Hnin].
      * rewrite decide_True; [done | by right].
      * rewrite decide_False; [done |]. by intros [?|?]%elem_of_cons.
Qed.

Lemma values_setitem (d : list (Z * Z)) (k : Z) :
  foldl Z.add 0 (Tally.dict_setitem d k (tally d k + 1)).*2 = foldl Z.add 0 d.*2 + 1.
Proof.
  assert (∀ (l : list Z) a, foldl Z.add a l = a + foldl Z.add 0 l) as Hsum.
  { induction l as [|x l IH]; intros a; simpl; [lia |].
    rewrite IH, (IH (0 + x)). lia. }
  unfold tally. induction d as [|e d IH]; simpl; [done |].
  destruct (Z.eqb_spec e.1 k) as [->|Hne]; csimpl.
  - rewrite Hsum, (Hsum _ (0 + e.2)). lia.
  - rewrite Hsum, (Hsum _ (0 + e.2)), IH. lia.
Qed.

(** One step of the loop adds one to the count of the character. *)
Lemma count_freq_step (dct : list (Z * Z)) (ch : Z) :
  (if Tally.dict_contains dct ch then
     n ← Tally.dict_getitem dct ch; mret (Tally.dict_setitem dct ch (n + 1))
   else mret (Tally.dict_setitem dct ch 1))
  = Ok (Tally.dict_setitem dct ch (tally dct ch + 1)).
Proof.
  destruct (Tally.dict_contains dct ch) eqn:E.
  - apply dict_contains_keys in E.
    by rewrite dict_getitem_tally, decide_True.
  - assert (ch ∉ dct.*1) as Hnin.
    { intros Hin%dict_contains_keys. congruence. }
    by rewrite tally_absent.
Qed.

Lemma count_freq_from (txt : str) (dct : list (Z * Z)) :
  NoDup dct.*1 →
  ∃ dct',
    for_each (fun (dct : list (Z * Z)) (ch : Z) =>
        if Tally.dict_contains dct ch then
          n ← Tally.dict_getitem dct ch; mret (Tally.dict_setitem dct ch (n + 1))
        else mret (Tally.dict_setitem dct ch 1)) dct txt = Ok dct'
    ∧ NoDup dct'.*1
    ∧ (∀ k, k ∈ dct'.*1 ↔ k ∈ dct.*1 ∨ k ∈ txt)
    ∧ (∀ k, tally dct' k = tally dct k + Z.of_nat (length (filter (fun x => x = k) txt)))
    ∧ foldl Z.add 0 dct'.*2 = foldl Z.add 0 dct.*2 + Z.of_nat (length txt).
Proof.
  revert dct. induction txt as [|ch txt IH]; intros dct Hnd.
  - exists dct. simpl. repeat split; try done; try lia.
    + by left.
    + intros [? | ?%elem_of_nil]; done.
  - simpl. rewrite count_freq_step, bind_Ok.
    destruct (IH (Tally.dict_setitem dct ch (tally dct ch + 1))) as
      (dct' & -> & Hnd' & Hkeys & Htally & Hsum).
    { rewrite keys_setitem. destruct (decide (ch ∈ dct.*1)); [by rewrite app_nil_r |].
      apply NoDup_app. split; [done |]. split; [| apply NoDup_singleton].
      intros x Hx ->%list_elem_of_singleton. done. }
    exists dct'. split; [done |]. split; [done |]. split; [| split].
    + intros k. rewrite Hkeys, keys_setitem, elem_of_app, elem_of_cons.
      destruct (decide (ch ∈ dct.*1)).
      * rewrite elem_of_nil. intuition (subst; auto).
      * rewrite list_elem_of_singleton. intuition (subst; auto).
    + intros k. rewrite Htally, tally_setitem, filter_cons.
      destruct (decide (ch = k)) as [->|Hne]; simpl; lia.
    + rewrite Hsum, values_setitem. lia.
Qed.

(** X13: [count_freq] raises nothing and counts: the dict it returns has
    each character of the text once as a key, with the number of its
    occurrences in the text as value, and no other key. *)
Theorem count_freq_counts (txt : str) :
  ∃ dct,
    Tally.count_freq txt = Ok dct
    ∧ NoDup dct.*1
    ∧ ∀ ch, Tally.dict_getitem dct ch =
        if decide (ch ∈ txt)
        then Ok (Z.of_nat (length (filter (fun x => x = ch) txt)))
        else Raise KeyError.
Proof.
  destruct (count_freq_from txt []) as (dct & Hd & Hnd & Hkeys & Htally & _);
    [constructor |].
  exists dct. split; [exact Hd |]. split; [done |].
  intros ch. rewrite dict_getitem_tally.
  destruct (decide (ch ∈ txt)) as [Hin|Hnin].
  - rewrite decide_True by (apply Hkeys; by right). by rewrite Htally.
  - rewrite decide_False; [done |]. rewrite Hkeys. intros [?%elem_of_nil | ?]; done.
Qed.

(** X14: the counts of the tally are positive and add up to the length of
    the text. *)
Theorem count_freq_total (txt : str) :
  ∃ dct,
    Tally.count_freq txt = Ok dct
    ∧ Forall (fun e : Z * Z => 1 ≤ e.2) dct
    ∧ foldl Z.add 0 dct.*2 = Z.of_nat (length txt).
Proof.
  destruct (count_freq_from txt []) as (dct & Hd & Hnd & Hkeys & Htally & Hsum);
    [constructor |].
  exists dct. split; [exact Hd |]. split; [| by rewrite Hsum].
  rewrite Forall_forall. intros [k v] Hin.
  assert (k ∈ dct.*1) as Hk by (apply list_elem_of_fmap; by exists (k, v)).
  assert (tally dct k = v) as <-.
  { clear -Hnd Hin. unfold tally. induction dct as [|e dct IH]; [by apply elem_of_nil in Hin |].
    simpl. apply NoDup_cons in Hnd as [Hne Hnd].
    apply elem_of_cons in Hin as [<-|Hin]; simpl.
    - by rewrite Z.eqb_refl.
    - destruct (Z.eqb_spec e.1 k) as [He|He]; [| by apply IH].
      exfalso. apply Hne. rewrite He. apply list_elem_of_fmap. by exists (k, v). }
  rewrite Htally. apply Hkeys in Hk as [?%elem_of_nil | Hk]; [done |].
  assert (k ∈ filter (fun x => x = k) txt) as Hf by by apply list_elem_of_filter.
  change (tally [] k) with 0.
  destruct (filter _ txt); [by apply elem_of_nil in Hf | simpl; lia].
Qed.

(** X15: the keys stand in the order of their first occurrence: one more
    character at the end of the text adds its key at the end of the dict if
    the character is new, and leaves the keys as they are if it is not. *)
Theorem count_freq_key_order (txt : str) (ch : Z) :
  ∃ dct dct',
    Tally.count_freq txt = Ok dct
    ∧ Tally.count_freq (txt ++ [ch]) = Ok dct'
    ∧ dct'.*1 = dct.*1 ++ if decide (ch ∈ txt) then [] else [ch].
Proof.
  destruct (count_freq_from txt []) as (dct & Hd & Hnd & Hkeys & _); [constructor |].
  exists dct, (Tally.dict_setitem dct ch (tally dct ch + 1)).
  split; [exact Hd |]. split.
  - unfold Tally.count_freq in *.
    assert (∀ {A S : Type} (body : S -> A -> result S) xs x s,
              for_each body s (xs ++ [x]) = s' ← for_each body s xs; body s' x) as Hsnoc.
    { intros A S body xs x. induction xs as [|y xs IH]; intros s; simpl.
      - by destruct (body s x).
      - destruct (body s y); simpl; [apply IH | done]. }
    by rewrite Hsnoc, Hd, bind_Ok, count_freq_step.
  - rewrite keys_setitem. f_equal.
    destruct (decide (ch ∈ dct.*1)) as [Hin|Hnin], (decide (ch ∈ txt)) as [Ht|Ht];
      try done.
    + apply Hkeys in Hin as [?%elem_of_nil | ?]; done.
    + exfalso. apply Hnin, Hkeys. by right.
Qed.

Lemma StronglySorted_reverse {A : Type} (R : relation A) (l : list A) :
  StronglySorted R l → StronglySorted (flip R) (reverse l).
Proof.
  induction 1 as [|x l Hl IH Hx]; [constructor |].
  rewrite reverse_cons. apply StronglySorted_app.
  split; [| split; [done | repeat constructor]].
  intros a b Ha ->%list_elem_of_singleton. rewrite elem_of_reverse in Ha.
  rewrite Forall_forall in Hx. unfold flip. by apply Hx.
Qed.

(** X16: the script lists the tally by falling count: the list it prints
    holds the items of the dict, each once, and no item has a greater count
    than an item before it. *)
Theorem by_count_descends (frq_dict : list (Z * Z)) :
  Tally.by_count frq_dict ≡ₚ frq_dict
  ∧ StronglySorted (fun a b : Z * Z => b.2 ≤ a.2) (Tally.by_count frq_dict).
Proof.
  unfold Tally.by_count, Tally.sorted_reverse. split.
  - by rewrite reverse_Permutation, list_sort_perm, reverse_Permutation.
  - apply (StronglySorted_reverse (fun a b : Z * Z => a.2 ≤ b.2)).
    apply (list_sort_ranked Z.ltb (fun x : Z * Z => x.2) (fun x : Z * Z => x.2)).
    + intros x y ?%Z.ltb_lt. lia.
    + intros x y ?%Z.ltb_ge. lia.
Qed.
